(** * tidbyt-pro: the Bitcoin tracker of [main.py], embedded and verified

    [main.py] polls a price API, asks a rendering service for a WebP image
    and pushes it to a Tidbyt device, once per tick of an endless loop.

    The embedding is shallow.  Python values are the values [json] produces;
    a method of [TidbytBitcoinTracker] is a function in the monad [M], which
    threads the tracker object, collects what the method prints and requests,
    and carries Python exceptions.  Everything outside the process (the clock,
    the three HTTP services, [time.sleep], the config file) answers through a
    [tick] or a [startup] record, one answer per call site.  Writing a line
    with [print] is taken not to fail. *)

From Stdlib Require Import ZArith List String Ascii Bool Lia.
From Stdlib Require Import Floats.SpecFloat DecimalString.
From Stdlib Require Strings.Byte.
From Stdlib Require Import NArith.
Import ListNotations.

Local Open Scope string_scope.
Local Open Scope list_scope.
Local Open Scope Z_scope.

(** ** Python values and exceptions *)

(** What [json.load] and [response.json()] build: [None], [bool], [int],
    [float] (IEEE binary64, with [nan] and the infinities, which Python's
    decoder accepts), [str], [list] and [dict] (string keys, each bound
    once). *)
#[warnings="-register-all"]
Inductive pyval : Type :=
  | PNone
  | PBool (b : bool)
  | PInt (n : Z)
  | PFloat (f : spec_float)
  | PStr (s : string)
  | PList (l : list pyval)
  | PDict (d : list (string * pyval)).

(** The exception classes the program can meet.  [KeyboardInterrupt] derives
    from [BaseException] only; every other class here derives from
    [Exception]. *)
Inductive exn : Type :=
  | KeyboardInterrupt
  | FileNotFoundError
  | PermissionError
  | KeyError
  | TypeError
  | ValueError
  | OverflowError
  | JSONDecodeError
  | UnicodeDecodeError
  | ConnectionError
  | Timeout
  | OtherException (name : string).

Inductive result (A : Type) : Type :=
  | Ok (a : A)
  | Raise (e : exn).
Arguments Ok {A} a.
Arguments Raise {A} e.

(** [isinstance(e, Exception)] *)
Definition is_Exception (e : exn) : bool :=
  match e with
  | KeyboardInterrupt => false
  | _ => true
  end.

Definition is_KeyboardInterrupt (e : exn) : bool :=
  match e with KeyboardInterrupt => true | _ => false end.

Definition is_FileNotFoundError (e : exn) : bool :=
  match e with FileNotFoundError => true | _ => false end.

Definition is_KeyError (e : exn) : bool :=
  match e with KeyError => true | _ => false end.

(** [v is None] *)
Definition is_None (v : pyval) : bool :=
  match v with PNone => true | _ => false end.

Fixpoint lookup (k : string) (d : list (string * pyval)) : option pyval :=
  match d with
  | [] => None
  | (k', v) :: d' => if String.eqb k k' then Some v else lookup k d'
  end.

(** [v[k]] with a string key: a [dict] answers or raises [KeyError], every
    other type raises [TypeError] (not subscriptable, or indices must be
    integers). *)
Definition getitem (v : pyval) (k : string) : result pyval :=
  match v with
  | PDict d => match lookup k d with Some x => Ok x | None => Raise KeyError end
  | _ => Raise TypeError
  end.

(** Ints at or beyond this magnitude round to 2^1024 and do not convert to a
    float ([OverflowError: int too large to convert to float]). *)
Definition float_overflow : Z := 2 ^ 1024 - 2 ^ 970.

(** [format(v, ",.2f")], as the f-string of the "Fetched new price" line
    evaluates it.  Only the outcome matters here: [Ok v] stands for the text.
    [int] and [bool] format through a conversion to [float]; [str] rejects
    the format code; [None], [list] and [dict] reject any format string. *)
Definition format_2f (v : pyval) : result pyval :=
  match v with
  | PBool _ | PFloat _ => Ok v
  | PInt n => if Z.abs n <? float_overflow then Ok v else Raise OverflowError
  | PStr _ => Raise ValueError
  | PNone | PList _ | PDict _ => Raise TypeError
  end.

(** [int(f)] for a float: truncation toward zero; [nan] and the infinities
    do not convert. *)
Definition int_of_float (f : spec_float) : result Z :=
  match f with
  | S754_zero _ => Ok 0
  | S754_infinity _ => Raise OverflowError
  | S754_nan => Raise ValueError
  | S754_finite s m e =>
      let a := if 0 <=? e then Z.shiftl (Z.pos m) e else Z.shiftr (Z.pos m) (- e) in
      Ok (if s then - a else a)
  end.

(** [str(n)] for an int. *)
Definition str_of_int (n : Z) : string := NilZero.string_of_int (Z.to_int n).

(** The two conversions of CPython the program reaches that are not modelled
    here: [int(s)] for a [str] (its parser knows every Unicode digit and
    space), and [str(v)] for a value that is not a [str] (float repr, nested
    containers).  Every result below holds whatever they compute. *)
Record builtins : Type := {
  int_of_str : string -> option Z;   (* [None]: [int(s)] raises ValueError *)
  str_of_other : pyval -> string
}.

(** ** Time, HTTP and the observable trace *)

(** A [datetime] (naive, as [datetime.now()] gives) and a [timedelta] are
    counted in microseconds, their resolution. *)
Definition datetime : Type := Z.
Definition timedelta : Type := Z.
Definition timedelta_minutes (m : Z) : timedelta := m * 60 * 1000000.

Definition bytes : Type := list Byte.byte.

(** A [requests.Response]: the status, and three views of the body. *)
Record response : Type := {
  status_code : Z;
  content : bytes;
  text : string;
  json : result pyval
}.

Inductive request : Type :=
  | GET (url : string)
  | POST_data (url : string) (data : string)
  | POST_json (url : string) (headers : list (string * string)) (body : pyval).

(** The lines the program prints, one constructor per [print] statement,
    with the values the line interpolates. *)
Inductive message : Type :=
  | UsingCachedPrice
  | FetchedNewPrice (price : pyval)
  | FailedToFetchPrice (status : Z)
  | ErrorFetchingPrice (e : exn)
  | FailedToRenderWebP (status : Z)
  | ErrorCreatingWebP (e : exn)
  | PushedToTidbyt
  | FailedToPush (status : Z)
  | PushResponseText (body : string)
  | ErrorPushing (e : exn)
  | StartingUpdates (update_interval : Z)
  | FailedToUpdate
  | StoppingTracker
  | UnexpectedError (e : exn)
  | PleaseCreateConfig
  | ConfigMustContain.

Inductive event : Type :=
  | Print (m : message)
  | Http (r : request)
  | Sleep (secs : Z).

(** What the outside world answers during one iteration of the loop.  Each
    call site runs at most once per iteration.  A call may raise: a requests
    error, or [KeyboardInterrupt] when the signal arrives while it blocks. *)
Record tick : Type := {
  now : datetime;
  price_api : result response;
  render_api : result response;
  push_api : result response;
  sleep_api : result unit
}.

(** ** The tracker object and the monad of its methods *)

Record tracker : Type := {
  device_id : pyval;
  api_key : pyval;
  last_price : pyval;
  last_update : option datetime;
  cache_ttl : timedelta
}.

(** [__init__] *)
Definition TidbytBitcoinTracker (device_id api_key : pyval) : tracker :=
  {| device_id := device_id;
     api_key := api_key;
     last_price := PNone;
     last_update := None;
     cache_ttl := timedelta_minutes 4 |}.

(** A piece of Python code run over a state [S] gives its outcome, the state
    as it left it (assignments made before an exception stay), and the events
    it caused, oldest first.  A method of the tracker runs over the object. *)
Definition Py (S A : Type) : Type := S -> result A * S * list event.
Definition M (A : Type) : Type := Py tracker A.

Definition ret {S A} (a : A) : Py S A := fun s => (Ok a, s, []).

Definition raise {S A} (e : exn) : Py S A := fun s => (Raise e, s, []).

Definition bind {S A B} (m : Py S A) (k : A -> Py S B) : Py S B :=
  fun s =>
    match m s with
    | (Ok a, s1, out1) =>
        match k a s1 with
        | (r, s2, out2) => (r, s2, out1 ++ out2)
        end
    | (Raise e, s1, out1) => (Raise e, s1, out1)
    end.

Declare Scope py_scope.
Delimit Scope py_scope with py.
Notation "x <- m ;; k" := (bind m (fun x => k))
  (at level 100, m at next level, right associativity) : py_scope.
Notation "m ;; k" := (bind m (fun _ => k))
  (at level 100, right associativity) : py_scope.
Local Open Scope py_scope.

Definition lift {S A} (r : result A) : Py S A :=
  match r with Ok a => ret a | Raise e => raise e end.

Definition emit {S} (ev : event) : Py S unit := fun s => (Ok tt, s, [ev]).

Definition print {S} (m : message) : Py S unit := emit (Print m).

Definition get_self : M tracker := fun self => (Ok self, self, []).

Definition set_last_price (v : pyval) : M unit :=
  fun self =>
    (Ok tt,
     {| device_id := self.(device_id); api_key := self.(api_key);
        last_price := v;
        last_update := self.(last_update); cache_ttl := self.(cache_ttl) |},
     []).

Definition set_last_update (d : datetime) : M unit :=
  fun self =>
    (Ok tt,
     {| device_id := self.(device_id); api_key := self.(api_key);
        last_price := self.(last_price);
        last_update := Some d; cache_ttl := self.(cache_ttl) |},
     []).

(** One [except C as e: handler] clause. *)
Definition clause (S A : Type) : Type := (exn -> bool) * (exn -> Py S A).

Fixpoint dispatch {S A} (cs : list (clause S A)) (e : exn) : option (Py S A) :=
  match cs with
  | [] => None
  | (catches, handler) :: cs' =>
      if catches e then Some (handler e) else dispatch cs' e
  end.

(** [try: body  except ...]: the first clause whose class matches handles the
    exception; with no match it propagates. *)
Definition try_except {S A} (body : Py S A) (cs : list (clause S A)) : Py S A :=
  fun s =>
    match body s with
    | (Ok a, s1, out1) => (Ok a, s1, out1)
    | (Raise e, s1, out1) =>
        match dispatch cs e with
        | Some h =>
            match h s1 with
            | (r, s2, out2) => (r, s2, out1 ++ out2)
            end
        | None => (Raise e, s1, out1)
        end
    end.

(** [requests.get] and [requests.post]: the request goes out, the world
    answers. *)
Definition requests_call {S} (r : request) (answer : result response) : Py S response :=
  emit (Http r) ;; lift answer.

(** ** [get_bitcoin_price] *)

Definition COINDESK_PRICE_URL : string :=
  "https://api.coindesk.com/v1/bpi/currentprice.json".

(** The guard of the cached branch. *)
Definition cache_valid (self : tracker) (now : datetime) : bool :=
  negb (is_None self.(last_price)) &&
  match self.(last_update) with
  | Some at_ => now - at_ <? self.(cache_ttl)
  | None => false
  end.

Definition get_bitcoin_price (w : tick) : M pyval :=
  let now := w.(now) in
  self <- get_self ;;
  if cache_valid self now then
    print UsingCachedPrice ;;
    ret self.(last_price)
  else
    try_except
      (response <- requests_call (GET COINDESK_PRICE_URL) w.(price_api) ;;
       if response.(status_code) =? 200 then
         data <- lift response.(json) ;;
         bpi <- lift (getitem data "bpi") ;;
         usd <- lift (getitem bpi "USD") ;;
         price <- lift (getitem usd "rate_float") ;;
         set_last_price price ;;
         set_last_update now ;;
         shown <- lift (format_2f price) ;;
         print (FetchedNewPrice shown) ;;
         ret price
       else
         print (FailedToFetchPrice response.(status_code)) ;;
         ret PNone)
      [(is_Exception, fun e => print (ErrorFetchingPrice e) ;; ret PNone)].

(** ** [create_webp] *)

Definition nl : string := String "010" "".
Definition dq : string := String "034" "".

(** Each line followed by a line feed. *)
Definition unlines (ls : list string) : string :=
  fold_right (fun l acc => l ++ nl ++ acc)%string "" ls.

(** The class constant: a line feed, four indented lines of base64, and the
    indentation of the closing quotes. *)
Definition BTC_ICON : string :=
  (nl ++
   unlines
     ["    iVBORw0KGgoAAAANSUhEUgAAABEAAAARCAYAAAA7bUf6AAAAlklEQVQ4T2NkwAH+H2T/jy7FaP+";
      "    TEZtyDEG4Zi0TTPXXzoDF0A1DMQRsADbN6MZdO4NiENwQbAbERh1lWLzMmgFGo5iFZBDYEFwuwG";
      "    sISCPUIKyGgDRjAyBXYXMNIz5XgDQga8TpLboYgux8DO/AwoUuLiEqTLBFMcmxQ7V0gssgklIsL";
      "    AYozjsoBoE45OZi5DRBSnkCAMLhlPBiQGHlAAAAAElFTkSuQmCC"] ++
   "    ")%string.

(** The argument of [render.Text]: a dollar sign, then [int(price)] in
    decimal. *)
Definition price_label (n : Z) : string := ("$" ++ str_of_int n)%string.

(** The Starlark program of the f-string, for [int(price) = n]. *)
Definition render_code (n : Z) : string :=
  unlines
    [""%string;
     "load(" ++ dq ++ "render.star" ++ dq ++ ", " ++ dq ++ "render" ++ dq ++ ")";
     "load(" ++ dq ++ "encoding/base64.star" ++ dq ++ ", " ++ dq ++ "base64" ++ dq ++ ")";
     "";
     "BTC_ICON = base64.decode(" ++ dq ++ dq ++ dq ++ BTC_ICON ++ dq ++ dq ++ dq ++ ")";
     "";
     "def main():";
     "    return render.Root(";
     "        child = render.Box(";
     "            render.Row(";
     "                expanded=True,";
     "                main_align=" ++ dq ++ "space_evenly" ++ dq ++ ",";
     "                cross_align=" ++ dq ++ "center" ++ dq ++ ",";
     "                children = [";
     "                    render.Image(src=BTC_ICON),";
     "                    render.Text(" ++ dq ++ price_label n ++ dq ++ "),";
     "                ],";
     "            ),";
     "        ),";
     "    )"]%string.

Definition PIXLET_RENDER_URL : string := "https://pixlet.tidbyt.com/render".

(** ** [base64.b64encode] *)

Definition b64_alphabet : string :=
  "ABCDEFGHIJKLMNOPQRSTUVWXYZabcdefghijklmnopqrstuvwxyz0123456789+/".

(** The character of a 6-bit group. *)
Definition b64_char (n : N) : ascii :=
  match String.get (N.to_nat n) b64_alphabet with
  | Some c => c
  | None => "="%char
  end.

Definition b64_pad : ascii := "="%char.

(** Three bytes give four characters; a last group of one or two bytes is
    padded with [=]. *)
Fixpoint b64encode (bs : bytes) : string :=
  match bs with
  | [] => ""
  | [a] =>
      let x := Byte.to_N a in
      String (b64_char (N.shiftr x 2))
        (String (b64_char (N.shiftl (N.land x 3) 4))
           (String b64_pad (String b64_pad "")))
  | [a; b] =>
      let x := Byte.to_N a in
      let y := Byte.to_N b in
      String (b64_char (N.shiftr x 2))
        (String (b64_char (N.lor (N.shiftl (N.land x 3) 4) (N.shiftr y 4)))
           (String (b64_char (N.shiftl (N.land y 15) 2))
              (String b64_pad "")))
  | a :: b :: c :: rest =>
      let x := Byte.to_N a in
      let y := Byte.to_N b in
      let z := Byte.to_N c in
      String (b64_char (N.shiftr x 2))
        (String (b64_char (N.lor (N.shiftl (N.land x 3) 4) (N.shiftr y 4)))
           (String (b64_char (N.lor (N.shiftl (N.land y 15) 2) (N.shiftr z 6)))
              (String (b64_char (N.land z 63)) (b64encode rest))))
  end.

(** ** The push URL, the sleep, the loop and the startup answers *)

Definition TIDBYT_API_URL (device : string) : string :=
  ("https://api.tidbyt.com/v0/devices/" ++ device ++ "/push")%string.

(** [time.sleep] counts an int length in nanoseconds on 64 bits: a length
    of 9223372037 seconds or more, in either direction, does not convert. *)
Definition SLEEP_LIMIT : Z := 9223372037.

(** The exception with which [time.sleep(secs)] refuses the length before
    any waiting: [OverflowError] when the conversion fails, and, the
    conversion done, [ValueError] for a negative length. *)
Definition sleep_refusal (secs : Z) : option exn :=
  if (secs <=? - SLEEP_LIMIT) || (SLEEP_LIMIT <=? secs) then Some OverflowError
  else if secs <? 0 then Some ValueError
  else None.

(** [time.sleep(secs)]: a refused length raises at once; otherwise the
    process waits, and the world answers (the wait ends, an interrupt
    arrives, or the system rejects the call). *)
Definition time_sleep {S} (secs : Z) (answer : result unit) : Py S unit :=
  match sleep_refusal secs with
  | Some e => raise e
  | None => emit (Sleep secs) ;; lift answer
  end.

(** Where a run of the program stands after the ticks it was given: the
    [while True] is still going, or the function has returned. *)
Inductive progress : Type :=
  | Looping
  | Returned.

(** [while True: body], over the ticks given: [Ok tt] when they are used up
    and the loop is about to start another iteration. *)
Fixpoint while_True {S} (body : tick -> Py S unit) (ws : list tick) : Py S unit :=
  match ws with
  | [] => ret tt
  | w :: ws' => body w ;; while_True body ws'
  end.

(** What the file system answers at startup: [open('tidbyt_config.json')],
    then [json.load(f)]. *)
Record startup : Type := {
  open_config : result unit;
  load_config : result pyval
}.

Section Methods.

(** The conversions of CPython left open. *)
Variable py : builtins.

(** [int(v)] *)
Definition py_int (v : pyval) : result Z :=
  match v with
  | PBool b => Ok (if b then 1 else 0)
  | PInt n => Ok n
  | PFloat f => int_of_float f
  | PStr s =>
      match py.(int_of_str) s with Some n => Ok n | None => Raise ValueError end
  | PNone | PList _ | PDict _ => Raise TypeError
  end.

(** [str(v)], which is also what an f-string and [str.format] put for [{}]. *)
Definition py_str (v : pyval) : string :=
  match v with
  | PStr s => s
  | _ => py.(str_of_other) v
  end.

(** The f-string is evaluated before the [try], so [int(price)] raises
    outside it.  The text is ASCII, so encoding it to UTF-8 keeps it. *)
Definition create_webp (w : tick) : M (option bytes) :=
  price <- get_bitcoin_price w ;;
  if is_None price then ret None
  else
    n <- lift (py_int price) ;;
    let render_code := render_code n in
    try_except
      (response <- requests_call (POST_data PIXLET_RENDER_URL render_code)
                                 w.(render_api) ;;
       if negb (response.(status_code) =? 200) then
         print (FailedToRenderWebP response.(status_code)) ;;
         ret None
       else
         ret (Some response.(content)))
      [(is_Exception, fun e => print (ErrorCreatingWebP e) ;; ret None)].

(** [if not webp_data]: [None] and the empty [bytes] are both falsy. *)
Definition falsy (webp_data : option bytes) : bool :=
  match webp_data with
  | None | Some [] => true
  | Some (_ :: _) => false
  end.

Definition push_headers (self : tracker) : list (string * string) :=
  [("Authorization", "Bearer " ++ py_str self.(api_key));
   ("Content-Type", "application/json")]%string.

Definition push_data (encoded_webp : string) : pyval :=
  PDict [("image", PStr encoded_webp);
         ("installation_id", PStr "bitcoin-tracker");
         ("background", PBool true)].

(** ** [push_to_tidbyt] *)

Definition push_to_tidbyt (w : tick) : M bool :=
  webp_data <- create_webp w ;;
  if falsy webp_data then ret false
  else
    try_except
      (let encoded_webp :=
         b64encode (match webp_data with Some bs => bs | None => [] end) in
       self <- get_self ;;
       let headers := push_headers self in
       let data := push_data encoded_webp in
       response <- requests_call
                     (POST_json (TIDBYT_API_URL (py_str self.(device_id)))
                                headers data)
                     w.(push_api) ;;
       if response.(status_code) =? 200 then
         print PushedToTidbyt ;;
         ret true
       else
         print (FailedToPush response.(status_code)) ;;
         print (PushResponseText response.(text)) ;;
         ret false)
      [(is_Exception, fun e => print (ErrorPushing e) ;; ret false)].

(** ** [run_continuous_updates] *)

(** The body of the [while True]. *)
Definition iteration (update_interval : Z) (w : tick) : M unit :=
  success <- push_to_tidbyt w ;;
  (if negb success then print FailedToUpdate else ret tt) ;;
  time_sleep update_interval w.(sleep_api).

Definition run_continuous_updates (update_interval : Z) (ws : list tick)
  : M progress :=
  print (StartingUpdates update_interval) ;;
  try_except
    (while_True (iteration update_interval) ws ;;
     ret Looping)
    [(is_KeyboardInterrupt, fun _ => print StoppingTracker ;; ret Returned);
     (is_Exception, fun e => print (UnexpectedError e) ;; ret Returned)].

(** ** [main] *)

(** The body of the [with open(...)] block. *)
Definition load_configuration (fs : startup) : Py unit (pyval * pyval) :=
  lift fs.(open_config) ;;
  config <- lift fs.(load_config) ;;
  device_id <- lift (getitem config "device_id") ;;
  api_key <- lift (getitem config "api_key") ;;
  ret (device_id, api_key).

(** A method call on a local object: the caller keeps no state of its own. *)
Definition call {A} (self : tracker) (m : M A) : Py unit A :=
  fun _ => match m self with (r, _, out) => (r, tt, out) end.

(** [None] stands for the [return] inside a handler, which leaves [main]. *)
Definition main (fs : startup) (ws : list tick) : Py unit progress :=
  loaded <- try_except
              (c <- load_configuration fs ;; ret (Some c))
              [(is_FileNotFoundError,
                fun _ => print PleaseCreateConfig ;; ret None);
               (is_KeyError,
                fun _ => print ConfigMustContain ;; ret None)] ;;
  match loaded with
  | None => ret Returned
  | Some (device_id, api_key) =>
      let tracker := TidbytBitcoinTracker device_id api_key in
      call tracker (run_continuous_updates 300 ws)
  end.

End Methods.

(** ** Notions the statements use *)

(** The path [data["bpi"]["USD"]["rate_float"]] read off a price response. *)
Definition rate_float (r : response) : result pyval :=
  match r.(json) with
  | Raise e => Raise e
  | Ok data =>
      match getitem data "bpi" with
      | Raise e => Raise e
      | Ok bpi =>
          match getitem bpi "USD" with
          | Raise e => Raise e
          | Ok usd => getitem usd "rate_float"
          end
      end
  end.

(** The tracker after the two assignments of a fetch. *)
Definition remember (self : tracker) (price : pyval) (now : datetime) : tracker :=
  {| device_id := self.(device_id); api_key := self.(api_key);
     last_price := price; last_update := Some now;
     cache_ttl := self.(cache_ttl) |}.

Definition outcome {S A} (x : result A * S * list event) : result A := fst (fst x).
Definition state_after {S A} (x : result A * S * list event) : S := snd (fst x).
Definition events {S A} (x : result A * S * list event) : list event := snd x.

(** The failure lines of [get_bitcoin_price]. *)
Definition fetch_failure_line (m : message) : Prop :=
  (exists status, m = FailedToFetchPrice status) \/
  (exists e, m = ErrorFetchingPrice e).

Definition is_push_request (ev : event) : bool :=
  match ev with Http (POST_json _ _ _) => true | _ => false end.

Definition is_sleep (ev : event) : bool :=
  match ev with Sleep _ => true | _ => false end.

Definition sleeps (out : list event) : nat := List.length (filter is_sleep out).

Definition exception_only {A} (r : result A) : bool :=
  match r with Ok _ => true | Raise e => is_Exception e end.

(** No call of the tick is answered by a [KeyboardInterrupt]. *)
Definition no_interrupt (w : tick) : bool :=
  exception_only w.(price_api) &&
  match w.(price_api) with
  | Ok response => exception_only response.(json)
  | Raise _ => true
  end &&
  exception_only w.(render_api) &&
  exception_only w.(push_api) &&
  exception_only w.(sleep_api).

(** The price a tick offers to a fetch: the one of a 200 response whose
    document has the path. *)
Definition price_offered (w : tick) : option pyval :=
  match w.(price_api) with
  | Ok response =>
      if response.(status_code) =? 200 then
        match rate_float response with Ok price => Some price | Raise _ => None end
      else None
  | Raise _ => None
  end.

(** [v > 0] holds in Python. *)
Definition gt_zero (v : pyval) : bool :=
  match v with
  | PBool b => b
  | PInt n => 0 <? n
  | PFloat (S754_finite false _ _) => true
  | PFloat (S754_infinity false) => true
  | _ => false
  end.

(** The invariant of the data model: a cached price, when present, is
    greater than zero. *)
Definition cache_positive (self : tracker) : bool :=
  is_None self.(last_price) || gt_zero self.(last_price).

Definition offers_positive (w : tick) : bool :=
  match price_offered w with Some price => gt_zero price | None => true end.

(** [n] is the float of sign [s], mantissa [m] and exponent [e] (the number
    [m * 2^e], negated when [s]) with its fraction dropped. *)
Definition truncates (n : Z) (s : bool) (m : positive) (e : Z) : Prop :=
  exists a,
    n = (if s then - a else a) /\
    0 <= a /\
    a * 2 ^ Z.max 0 (- e) <= Z.pos m * 2 ^ Z.max 0 e < (a + 1) * 2 ^ Z.max 0 (- e).

(** The call [render.Text("...")] as it stands in the Starlark program. *)
Definition text_call (label : string) : string :=
  ("render.Text(" ++ dq ++ label ++ dq ++ ")")%string.

(** An exception of class [Exception] leaves the loop body at tick [w],
    entered with the object [s]: [int(price)] raised it on the price the read
    returned, or [time.sleep] did. *)
Definition escapes (py : builtins) (w : tick) (s : tracker) (e : exn) : Prop :=
  w.(sleep_api) = Raise e \/
  exists price s1 o1,
    get_bitcoin_price w s = (Ok price, s1, o1) /\
    is_None price = false /\
    py_int py price = Raise e.

Definition sleep_returns (w : tick) : bool :=
  match w.(sleep_api) with Ok _ => true | Raise _ => false end.

(** [int(v)] succeeds. *)
Definition convertible (py : builtins) (v : pyval) : bool :=
  match py_int py v with Ok _ => true | Raise _ => false end.

Definition cache_convertible (py : builtins) (self : tracker) : bool :=
  is_None self.(last_price) || convertible py self.(last_price).

Definition offers_convertible (py : builtins) (w : tick) : bool :=
  match price_offered w with
  | Some price => is_None price || convertible py price
  | None => true
  end.

(** ** Concrete inputs *)

Definition price_document (v : pyval) : pyval :=
  PDict [("bpi", PDict [("USD", PDict [("rate_float", v)])])].

(** A 200 answer of the price API whose document carries [v]. *)
Definition price_response (v : pyval) : response :=
  {| status_code := 200; content := []; text := ""; json := Ok (price_document v) |}.

(** An answer with a body that is not JSON. *)
Definition plain_response (status : Z) (body : string) : response :=
  {| status_code := status;
     content := list_byte_of_string body;
     text := body;
     json := Raise JSONDecodeError |}.

(** The doubles nearest to 42999.9, 100.0, 67890.12 and -1.0. *)
Definition float_42999_9 : spec_float := S754_finite false 5909861255400653 (-37).
Definition float_100 : spec_float := S754_finite false 7036874417766400 (-46).
Definition float_67890_12 : spec_float := S754_finite false 4665373521944248 (-36).
Definition float_minus_1 : spec_float := S754_finite true 4503599627370496 (-52).

(** A tick in which every service answers 200 and the sleep returns. *)
Definition good_tick (at_ : datetime) (price : pyval) (image : string) : tick :=
  {| now := at_;
     price_api := Ok (price_response price);
     render_api := Ok (plain_response 200 image);
     push_api := Ok (plain_response 200 "");
     sleep_api := Ok tt |}.

(** A tick in which the price API answers 503. *)
Definition tick_price_503 : tick :=
  {| now := 0;
     price_api := Ok (plain_response 503 "Service Unavailable");
     render_api := Ok (plain_response 200 "RIFF");
     push_api := Ok (plain_response 200 "");
     sleep_api := Ok tt |}.

(** A tick in which the device API answers 403. *)
Definition tick_push_403 : tick :=
  {| now := 0;
     price_api := Ok (price_response (PFloat float_67890_12));
     render_api := Ok (plain_response 200 "RIFF");
     push_api := Ok (plain_response 403 "Forbidden");
     sleep_api := Ok tt |}.

(** A tick, five minutes later, in which Ctrl-C arrives during the sleep. *)
Definition tick_interrupted : tick :=
  {| now := 300000000;
     price_api := Ok (price_response (PFloat float_67890_12));
     render_api := Ok (plain_response 200 "RIFF");
     push_api := Ok (plain_response 200 "");
     sleep_api := Raise KeyboardInterrupt |}.

(** A tick in which the rendering endpoint answers 200 with an empty body. *)
Definition tick_empty_render : tick := good_tick 0 (PFloat float_67890_12) "".

(** A tick in which the price document carries [1e999], which Python reads
    as the float infinity. *)
Definition tick_infinite_price : tick :=
  good_tick 0 (PFloat (S754_infinity false)) "RIFF".

(** A config file with no [api_key], and one that is not JSON. *)
Definition config_without_api_key : startup :=
  {| open_config := Ok tt;
     load_config := Ok (PDict [("device_id", PStr "device")]) |}.

Definition config_not_json : startup :=
  {| open_config := Ok tt; load_config := Raise JSONDecodeError |}.

Fixpoint digits_value (s : string) (acc : Z) : option Z :=
  match s with
  | "" => Some acc
  | String c s' =>
      let d := Z.of_nat (nat_of_ascii c) - 48 in
      if (0 <=? d) && (d <=? 9) then digits_value s' (10 * acc + d) else None
  end.

(** One instance of the open conversions, to run the model: [int(s)] reads
    ASCII decimal digits, [str(v)] writes [None], booleans and ints.  The
    runs below reach neither. *)
Definition ascii_builtins : builtins :=
  {| int_of_str := fun s => match s with "" => None | _ => digits_value s 0 end;
     str_of_other := fun v =>
       match v with
       | PNone => "None"
       | PBool true => "True"
       | PBool false => "False"
       | PInt n => str_of_int n
       | _ => ""
       end |}.

Definition fresh_tracker : tracker := TidbytBitcoinTracker (PStr "device") (PStr "secret").

(** ** A decoder of base64, to show that the encoding loses nothing *)

(** The position of a character in the alphabet. *)
Fixpoint index_of (c : ascii) (s : string) (i : N) : option N :=
  match s with
  | "" => None
  | String c' s' => if Ascii.eqb c c' then Some i else index_of c s' (N.succ i)
  end.
Definition b64_index (c : ascii) : option N := index_of c b64_alphabet 0%N.
(** The byte of a number below 256. *)
Definition byte_of (n : N) : Byte.byte :=
  match Byte.of_N n with Some b => b | None => Byte.x00 end.
Definition is_empty (s : string) : bool := match s with "" => true | _ => false end.

(** Groups of four characters back to three bytes; a group that ends in one
    or two pad characters is the last and gives two bytes or one. *)
Fixpoint b64decode (s : string) : option bytes :=
  match s with
  | "" => Some []
  | String c1 (String c2 (String c3 (String c4 rest))) =>
      match b64_index c1, b64_index c2 with
      | Some a, Some b =>
          let x := byte_of (N.lor (N.shiftl a 2) (N.shiftr b 4)) in
          if Ascii.eqb c3 b64_pad then
            if Ascii.eqb c4 b64_pad && is_empty rest then Some [x] else None
          else
            match b64_index c3 with
            | Some c =>
                let y := byte_of (N.lor (N.shiftl (N.land b 15) 4) (N.shiftr c 2)) in
                if Ascii.eqb c4 b64_pad then
                  if is_empty rest then Some [x; y] else None
                else
                  match b64_index c4 with
                  | Some d =>
                      let z := byte_of (N.lor (N.shiftl (N.land c 3) 6) d) in
                      match b64decode rest with
                      | Some tl => Some (x :: y :: z :: tl)
                      | None => None
                      end
                  | None => None
                  end
            | None => None
            end
      | _, _ => None
      end
  | _ => None
  end.

(** The numbers a byte can be, and the checks run over all of them. *)
Definition N256 : list N := map N.of_nat (seq 0 256).

(** The character of [s] is not the pad and leads back to [s]. *)
Definition sextet_ok (s : N) : bool :=
  match b64_index (b64_char s) with Some i => N.eqb i s | None => false end
  && negb (Ascii.eqb (b64_char s) b64_pad).

Definition pair_ok (x y : N) : bool :=
  let s1 := N.shiftr x 2 in
  let s2 := N.lor (N.shiftl (N.land x 3) 4) (N.shiftr y 4) in
  let s3 := N.lor (N.shiftl (N.land x 15) 2) (N.shiftr y 6) in
  let s4 := N.land y 63 in
  sextet_ok s1 && sextet_ok s2 && sextet_ok s3 && sextet_ok s4 &&
  N.eqb (N.lor (N.shiftl s1 2) (N.shiftr s2 4)) x &&
  N.eqb (N.land s2 15) (N.shiftr y 4) &&
  N.eqb (N.shiftr s3 2) (N.land x 15) &&
  N.eqb (N.lor (N.shiftl (N.land s3 3) 6) s4) y &&
  N.eqb (N.lor (N.shiftl (N.shiftr x 4) 4) (N.land x 15)) x.


Definition sextet_inverts (s : N) : Prop :=
  b64_index (b64_char s) = Some s /\ Ascii.eqb (b64_char s) b64_pad = false.


(** ** Notions of the further properties *)

(** The line [get_bitcoin_price] prints when a fetch fails: a status other
    than 200, or an exception of class [Exception] raised by the request, by
    the decoding, by the path, or by the format of the fetched line. *)
Definition fetch_failure (w : tick) : option message :=
  match w.(price_api) with
  | Ok response =>
      if response.(status_code) =? 200 then
        match rate_float response with
        | Ok price =>
            match format_2f price with
            | Ok _ => None
            | Raise e => Some (ErrorFetchingPrice e)
            end
        | Raise e => if is_Exception e then Some (ErrorFetchingPrice e) else None
        end
      else Some (FailedToFetchPrice response.(status_code))
  | Raise e => if is_Exception e then Some (ErrorFetchingPrice e) else None
  end.

(** The line [create_webp] prints when the render request fails: a status
    other than 200, or an exception of class [Exception]. *)
Definition render_failure (w : tick) : option message :=
  match w.(render_api) with
  | Ok response =>
      if response.(status_code) =? 200 then None
      else Some (FailedToRenderWebP response.(status_code))
  | Raise e => if is_Exception e then Some (ErrorCreatingWebP e) else None
  end.

(** The lines [push_to_tidbyt] prints when the push request fails. *)
Definition push_failure (w : tick) : option (list message) :=
  match w.(push_api) with
  | Ok response =>
      if response.(status_code) =? 200 then None
      else Some [FailedToPush response.(status_code);
                 PushResponseText response.(text)]
  | Raise e => if is_Exception e then Some [ErrorPushing e] else None
  end.

(** The line one of the two handlers around the loop prints for [e]. *)
Definition closing_line (e : exn) : message :=
  if is_KeyboardInterrupt e then StoppingTracker else UnexpectedError e.

(** The requests a tracker built on the credentials [d] and [k] may send. *)
Definition allowed_request (py : builtins) (d k : pyval) (r : request) : Prop :=
  r = GET COINDESK_PRICE_URL \/
  (exists n, r = POST_data PIXLET_RENDER_URL (render_code n)) \/
  (exists b bs,
      r = POST_json
            (TIDBYT_API_URL (py_str py d))
            [("Authorization", "Bearer " ++ py_str py k);
             ("Content-Type", "application/json")]%string
            (PDict [("image", PStr (b64encode (b :: bs)));
                    ("installation_id", PStr "bitcoin-tracker");
                    ("background", PBool true)])).

Definition is_dict (v : pyval) : bool :=
  match v with PDict _ => true | _ => false end.

(** Between the clock readings of two consecutive ticks at least [gap]
    passes. *)
Fixpoint spaced (gap : timedelta) (ws : list tick) : bool :=
  match ws with
  | [] => true
  | w :: rest =>
      match rest with
      | [] => true
      | w' :: _ => (gap <=? w'.(now) - w.(now)) && spaced gap rest
      end
  end.

(** At clock reading [t] no sample is young enough to be served. *)
Definition expired (self : tracker) (t : datetime) : bool :=
  match self.(last_update) with
  | None => true
  | Some fetched_at => self.(cache_ttl) <=? t - fetched_at
  end.

Definition is_get (ev : event) : bool :=
  match ev with Http (GET _) => true | _ => false end.

Definition is_render_request (ev : event) : bool :=
  match ev with Http (POST_data _ _) => true | _ => false end.

Definition count (p : event -> bool) (out : list event) : nat :=
  List.length (filter p out).

(** A tick in which the rendering endpoint answers 500, one in which the
    push request times out, and one a minute after [tick_push_403]. *)
Definition tick_render_500 : tick :=
  {| now := 0;
     price_api := Ok (price_response (PFloat float_67890_12));
     render_api := Ok (plain_response 500 "Internal Server Error");
     push_api := Ok (plain_response 200 "");
     sleep_api := Ok tt |}.

Definition tick_push_timeout : tick :=
  {| now := 0;
     price_api := Ok (price_response (PFloat float_67890_12));
     render_api := Ok (plain_response 200 "RIFF");
     push_api := Raise Timeout;
     sleep_api := Ok tt |}.

Definition tick_minute_later : tick :=
  {| now := 60000000;
     price_api := Ok (price_response (PFloat float_42999_9));
     render_api := Ok (plain_response 200 "RIFF");
     push_api := Ok (plain_response 200 "");
     sleep_api := Ok tt |}.

(** A tick in which the price API cannot be reached. *)
Definition tick_price_down : tick :=
  {| now := 600000000;
     price_api := Raise ConnectionError;
     render_api := Ok (plain_response 200 "RIFF");
     push_api := Ok (plain_response 200 "");
     sleep_api := Ok tt |}.

(** A tick in which Ctrl-C arrives during the price request. *)
Definition tick_interrupted_fetch : tick :=
  {| now := 0;
     price_api := Raise KeyboardInterrupt;
     render_api := Ok (plain_response 200 "RIFF");
     push_api := Ok (plain_response 200 "");
     sleep_api := Ok tt |}.

(** A config file that holds a JSON array, and a complete one. *)
Definition config_is_array : startup :=
  {| open_config := Ok tt;
     load_config := Ok (PList [PStr "device"; PStr "secret"]) |}.

Definition config_complete : startup :=
  {| open_config := Ok tt;
     load_config := Ok (PDict [("device_id", PStr "device");
                               ("api_key", PStr "secret");
                               ("comment", PStr "living room")]) |}.

(** ** Properties of [get_bitcoin_price] *)

Ltac run_py :=
  unfold requests_call, try_except, time_sleep, bind, lift, ret, raise, print,
    emit, get_self, set_last_price, set_last_update, dispatch in *;
  simpl in *.

(** Boolean comparisons among the hypotheses, as propositions. *)
Ltac order_facts :=
  repeat match goal with
         | H : (_ <=? _) = true |- _ => apply Z.leb_le in H
         | H : (_ <=? _) = false |- _ => apply Z.leb_gt in H
         | H : (_ <? _) = true |- _ => apply Z.ltb_lt in H
         | H : (_ <? _) = false |- _ => apply Z.ltb_ge in H
         end;
  unfold SLEEP_LIMIT in *.

(** Case analysis on an innermost scrutinee of the goal. *)
Ltac split_goal_match :=
  match goal with
  | |- context [match ?x with _ => _ end] =>
      lazymatch x with
      | context [match _ with _ => _ end] => fail
      | _ => destruct x eqn:?; simpl in *
      end
  end.

(** A read inside the time to live answers from the cache: one line printed,
    no request, the object untouched. *)
Lemma get_bitcoin_price_hit (w : tick) (self : tracker) :
  cache_valid self w.(now) = true ->
  get_bitcoin_price w self = (Ok self.(last_price), self, [Print UsingCachedPrice]).
Proof.
  intros Hv. unfold get_bitcoin_price. run_py. rewrite Hv. reflexivity.
Qed.

(** A read that misses the cache starts with the GET to the price API. *)
Lemma get_bitcoin_price_miss (w : tick) (self : tracker) :
  cache_valid self w.(now) = false ->
  exists out,
    events (get_bitcoin_price w self) = Http (GET COINDESK_PRICE_URL) :: out.
Proof.
  intros Hv. unfold get_bitcoin_price, events. run_py. rewrite Hv.
  repeat split_goal_match; simpl; eauto.
Qed.

(** The complete table of a read that misses the cache. *)
Lemma get_bitcoin_price_fetch (w : tick) (self : tracker) :
  cache_valid self w.(now) = false ->
  get_bitcoin_price w self =
  let get := Http (GET COINDESK_PRICE_URL) in
  match w.(price_api) with
  | Raise e =>
      if is_Exception e then (Ok PNone, self, [get; Print (ErrorFetchingPrice e)])
      else (Raise e, self, [get])
  | Ok response =>
      if response.(status_code) =? 200 then
        match rate_float response with
        | Raise e =>
            if is_Exception e
            then (Ok PNone, self, [get; Print (ErrorFetchingPrice e)])
            else (Raise e, self, [get])
        | Ok price =>
            match format_2f price with
            | Ok shown =>
                (Ok price, remember self price w.(now),
                 [get; Print (FetchedNewPrice shown)])
            | Raise e =>
                if is_Exception e
                then (Ok PNone, remember self price w.(now),
                      [get; Print (ErrorFetchingPrice e)])
                else (Raise e, remember self price w.(now), [get])
            end
        end
      else (Ok PNone, self, [get; Print (FailedToFetchPrice response.(status_code))])
  end.
Proof.
  intros Hv. unfold get_bitcoin_price, rate_float, remember. run_py. rewrite Hv.
  repeat split_goal_match; simpl; try reflexivity; try congruence.
Qed.

(** [format(v, ",.2f")] fails with an [Exception] only. *)
Lemma format_2f_raises (v : pyval) (e : exn) :
  format_2f v = Raise e -> is_Exception e = true.
Proof.
  destruct v as [| b | n | f | s | l | d]; simpl; intros H;
    try discriminate; try (inversion H; reflexivity).
  destruct (Z.abs n <? float_overflow); inversion H; reflexivity.
Qed.

(** A read either hits the cache or fetches. *)
Lemma get_bitcoin_price_state (w : tick) (self : tracker) :
  state_after (get_bitcoin_price w self) = self \/
  exists price,
    price_offered w = Some price /\
    state_after (get_bitcoin_price w self) = remember self price w.(now).
Proof.
  destruct (cache_valid self w.(now)) eqn:Hv.
  - left. rewrite get_bitcoin_price_hit by assumption. reflexivity.
  - rewrite get_bitcoin_price_fetch by assumption. unfold price_offered.
    cbv zeta. repeat split_goal_match; auto; right; eauto.
Qed.

(** No read sleeps. *)
Lemma get_bitcoin_price_sleeps (w : tick) (self : tracker) :
  sleeps (events (get_bitcoin_price w self)) = 0%nat.
Proof.
  destruct (cache_valid self w.(now)) eqn:Hv.
  - rewrite get_bitcoin_price_hit by assumption. reflexivity.
  - rewrite get_bitcoin_price_fetch by assumption. cbv zeta.
    repeat split_goal_match; reflexivity.
Qed.

(** The only request of a read is the GET to the price API. *)
Lemma get_bitcoin_price_requests (w : tick) (self : tracker) (r : request) :
  In (Http r) (events (get_bitcoin_price w self)) -> r = GET COINDESK_PRICE_URL.
Proof.
  destruct (cache_valid self w.(now)) eqn:Hv.
  - rewrite get_bitcoin_price_hit by assumption. simpl.
    intros [H | []]. discriminate.
  - rewrite get_bitcoin_price_fetch by assumption. cbv zeta.
    repeat split_goal_match; simpl; intuition congruence.
Qed.

Lemma getitem_raises (v : pyval) (k : string) (e : exn) :
  getitem v k = Raise e -> is_Exception e = true.
Proof.
  destruct v as [| b | n | f | s | l | d]; simpl; intros H;
    try (inversion H; reflexivity).
  destruct (lookup k d); inversion H; reflexivity.
Qed.

(** When reading the path fails outside [Exception], decoding raised it. *)
Lemma rate_float_interrupted (r : response) (e : exn) :
  rate_float r = Raise e -> is_Exception e = false -> r.(json) = Raise e.
Proof.
  unfold rate_float. intros H He.
  destruct (json r) as [data | e1]; [| congruence].
  destruct (getitem data "bpi") as [bpi | e2] eqn:H2.
  - destruct (getitem bpi "USD") as [usd | e3] eqn:H3.
    + apply getitem_raises in H. congruence.
    + inversion H; subst. apply getitem_raises in H3. congruence.
  - inversion H; subst. apply getitem_raises in H2. congruence.
Qed.

(** A read raises only when an interrupt answers the GET or the decoding. *)
Lemma get_bitcoin_price_raises (w : tick) (self self1 : tracker) (e : exn)
      (out : list event) :
  get_bitcoin_price w self = (Raise e, self1, out) ->
  is_Exception e = false /\ no_interrupt w = false.
Proof.
  destruct (cache_valid self w.(now)) eqn:Hv.
  - rewrite get_bitcoin_price_hit by assumption. discriminate.
  - rewrite get_bitcoin_price_fetch by assumption. cbv zeta.
    unfold no_interrupt.
    destruct (price_api w) as [resp | e0]; simpl.
    + destruct (status_code resp =? 200); try discriminate.
      destruct (rate_float resp) as [price | e1] eqn:Hr.
      * destruct (format_2f price) as [shown | ef] eqn:Hf; try discriminate.
        rewrite (format_2f_raises _ _ Hf). discriminate.
      * destruct (is_Exception e1) eqn:He; try discriminate.
        intros H. inversion H; subst. split; [assumption |].
        rewrite (rate_float_interrupted _ _ Hr He). simpl. rewrite He.
        reflexivity.
    + destruct (is_Exception e0) eqn:He; try discriminate.
      intros H. inversion H; subst. split; [assumption | reflexivity].
Qed.

(** ** The lengths [time.sleep] refuses *)

Lemma sleep_refusal_nonneg (secs : Z) :
  0 <= secs ->
  sleep_refusal secs = if secs <? SLEEP_LIMIT then None else Some OverflowError.
Proof.
  intros H. unfold sleep_refusal.
  destruct (secs <=? - SLEEP_LIMIT) eqn:A; destruct (SLEEP_LIMIT <=? secs) eqn:B;
    destruct (secs <? 0) eqn:C; destruct (secs <? SLEEP_LIMIT) eqn:D;
    simpl; try reflexivity; exfalso; order_facts; lia.
Qed.

Lemma sleep_refusal_negative (secs : Z) :
  secs < 0 ->
  sleep_refusal secs =
  Some (if secs <=? - SLEEP_LIMIT then OverflowError else ValueError).
Proof.
  intros H. unfold sleep_refusal.
  destruct (secs <=? - SLEEP_LIMIT) eqn:A; destruct (SLEEP_LIMIT <=? secs) eqn:B;
    destruct (secs <? 0) eqn:C;
    simpl; try reflexivity; exfalso; order_facts; lia.
Qed.

Lemma sleep_refusal_is_Exception (secs : Z) (e : exn) :
  sleep_refusal secs = Some e -> is_Exception e = true.
Proof.
  unfold sleep_refusal.
  destruct ((secs <=? - SLEEP_LIMIT) || (SLEEP_LIMIT <=? secs));
    [| destruct (secs <? 0)]; intros H; inversion H; reflexivity.
Qed.

(** ** The cache *)

(** C2. A read finds a sample present when both fields are set.  With the
    time to live of four minutes that [__init__] sets: when a sample is
    present and less than four minutes have passed since it was fetched, the
    read returns the cached value, prints one line and sends no request; when
    the sample is absent, or four minutes or more have passed, the read sends
    the GET to the price API. *)
Theorem cache_read_follows_ttl (w : tick) (self : tracker) :
  self.(cache_ttl) = timedelta_minutes 4 ->
  (forall fetched_at,
      self.(last_price) <> PNone ->
      self.(last_update) = Some fetched_at ->
      w.(now) - fetched_at < timedelta_minutes 4 ->
      get_bitcoin_price w self =
      (Ok self.(last_price), self, [Print UsingCachedPrice])) /\
  (self.(last_price) = PNone \/
   self.(last_update) = None \/
   (exists fetched_at,
       self.(last_update) = Some fetched_at /\
       timedelta_minutes 4 <= w.(now) - fetched_at) ->
   exists out,
     events (get_bitcoin_price w self) = Http (GET COINDESK_PRICE_URL) :: out).
Proof.
  intros Httl. split.
  - intros fetched_at Hprice Hupdate Hage.
    apply get_bitcoin_price_hit. unfold cache_valid.
    rewrite Hupdate, Httl.
    destruct (last_price self); try congruence; simpl; apply Z.ltb_lt; exact Hage.
  - intros Hmiss. apply get_bitcoin_price_miss. unfold cache_valid.
    destruct Hmiss as [Hnone | [Hnever | [fetched_at [Hupdate Hage]]]].
    + rewrite Hnone. reflexivity.
    + rewrite Hnever. apply andb_false_r.
    + rewrite Hupdate, Httl. replace (now w - fetched_at <? timedelta_minutes 4)
        with false by (symmetry; apply Z.ltb_ge; exact Hage).
      apply andb_false_r.
Qed.

(** The time to live is set once and never assigned again. *)
Lemma get_bitcoin_price_keeps_ttl (w : tick) (self : tracker) :
  (state_after (get_bitcoin_price w self)).(cache_ttl) = self.(cache_ttl).
Proof.
  destruct (get_bitcoin_price_state w self) as [H | [price [_ H]]];
    rewrite H; reflexivity.
Qed.

(** The parts of C4 that hold: a fetch answered by a status other than 200,
    by a raised error, or by a document without the path leaves the object as
    it was. *)
Lemma failed_request_keeps_cache (w : tick) (self : tracker) :
  price_offered w = None ->
  state_after (get_bitcoin_price w self) = self.
Proof.
  intros Hnone.
  destruct (get_bitcoin_price_state w self) as [H | [price [H _]]];
    [exact H | congruence].
Qed.

(** C4, at the input where it fails.  The price API answers 200 with the
    document [{"bpi": {"USD": {"rate_float": "67,890.12"}}}]: the rate is a
    string.  The two assignments run, then the format of the log line raises
    [ValueError] inside the [try]; the read reports the error and returns
    [None], a failed fetch, yet both cache fields were overwritten. *)
Theorem failed_fetch_overwrites_cache :
  get_bitcoin_price (good_tick 1000000 (PStr "67,890.12") "") fresh_tracker =
  (Ok PNone,
   remember fresh_tracker (PStr "67,890.12") 1000000,
   [Http (GET COINDESK_PRICE_URL); Print (ErrorFetchingPrice ValueError)]).
Proof. reflexivity. Qed.

(** The same with a number: an integer rate of 10^400 does not convert to a
    float, so the format raises [OverflowError] after the assignments. *)
Lemma overflowing_rate_overwrites_cache :
  get_bitcoin_price (good_tick 1000000 (PInt (10 ^ 400)) "") fresh_tracker =
  (Ok PNone,
   remember fresh_tracker (PInt (10 ^ 400)) 1000000,
   [Http (GET COINDESK_PRICE_URL); Print (ErrorFetchingPrice OverflowError)]).
Proof. vm_compute. reflexivity. Qed.

(** ** The rendered label *)

Lemma append_assoc (a b c : string) : ((a ++ b) ++ c = a ++ (b ++ c))%string.
Proof.
  induction a as [| x a IH]; simpl; [reflexivity | rewrite IH; reflexivity].
Qed.

(** The Starlark program holds the call [render.Text] on the label. *)
Lemma render_code_label (n : Z) :
  exists before after,
    render_code n = (before ++ text_call (price_label n) ++ after)%string.
Proof.
  exists (substring 0 703 (render_code 0)).
  exists ("," ++ nl ++
          unlines ["                ],"; "            ),"; "        ),"; "    )"])%string.
  let p := eval vm_compute in (substring 0 703 (render_code 0)) in
  change (substring 0 703 (render_code 0)) with p.
  unfold render_code, unlines, text_call, price_label, BTC_ICON, unlines, nl, dq.
  simpl. rewrite !append_assoc. simpl. reflexivity.
Qed.

(** [int] of a finite float drops the fraction, whatever the sign. *)
Lemma int_of_float_truncates (s : bool) (m : positive) (e : Z) :
  exists n, int_of_float (S754_finite s m e) = Ok n /\ truncates n s m e.
Proof.
  simpl. eexists. split; [reflexivity |]. unfold truncates.
  destruct (0 <=? e) eqn:He.
  - apply Z.leb_le in He. exists (Z.shiftl (Z.pos m) e).
    split; [reflexivity |].
    rewrite Z.shiftl_mul_pow2 by assumption.
    rewrite Z.max_l by lia. rewrite Z.max_r by lia. change (2 ^ 0) with 1.
    assert (0 < 2 ^ e) by (apply Z.pow_pos_nonneg; lia). nia.
  - apply Z.leb_gt in He. exists (Z.shiftr (Z.pos m) (- e)).
    split; [reflexivity |].
    rewrite Z.shiftr_div_pow2 by lia.
    rewrite Z.max_r by lia. rewrite Z.max_l by lia. change (2 ^ 0) with 1.
    assert (Hd : 0 < 2 ^ (- e)) by (apply Z.pow_pos_nonneg; lia).
    pose proof (Z.div_mod (Z.pos m) (2 ^ (- e)) ltac:(lia)) as Hdm.
    pose proof (Z.mod_pos_bound (Z.pos m) (2 ^ (- e)) Hd) as Hb.
    assert (0 <= Z.pos m / 2 ^ (- e)) by (apply Z.div_pos; lia).
    split; [assumption | nia].
Qed.

(** The constants are the doubles nearest to the decimals: the division of
    two exact floats rounds to nearest, as Python's reading of a literal. *)
Lemma float_constants_are_nearest :
  let of_Z z := binary_normalize 53 1024 z 0 false in
  SFdiv 53 1024 (of_Z 429999) (of_Z 10) = float_42999_9 /\
  of_Z 100 = float_100 /\
  SFdiv 53 1024 (of_Z 6789012) (of_Z 100) = float_67890_12 /\
  of_Z (-1) = float_minus_1.
Proof. vm_compute. repeat split. Qed.

Example int_42999_9 : int_of_float float_42999_9 = Ok 42999.
Proof. reflexivity. Qed.

Example int_100 : int_of_float float_100 = Ok 100.
Proof. reflexivity. Qed.

Example int_67890_12 : int_of_float float_67890_12 = Ok 67890.
Proof. reflexivity. Qed.

Example label_42999 : price_label 42999 = "$42999".
Proof. reflexivity. Qed.

Example label_100 : price_label 100 = "$100".
Proof. reflexivity. Qed.

(** ** base64 on the test vectors of RFC 4648 *)

Example b64encode_rfc4648 :
  map (fun s => b64encode (list_byte_of_string s))
      [""; "f"; "fo"; "foo"; "foob"; "fooba"; "foobar"] =
  [""; "Zg=="; "Zm8="; "Zm9v"; "Zm9vYg=="; "Zm9vYmE="; "Zm9vYmFy"].
Proof. reflexivity. Qed.

(** Bytes with the high bits set reach the last two characters of the
    alphabet. *)
Example b64encode_high_bytes :
  b64encode [Byte.xff; Byte.xfe; Byte.xfd; Byte.x00; Byte.x01] = "//79AAE=" /\
  b64encode [Byte.xfb; Byte.xff] = "+/8=".
Proof. split; reflexivity. Qed.

(** Four characters for every three bytes, the last group padded. *)
Lemma b64encode_length (bs : bytes) :
  String.length (b64encode bs) = (4 * ((List.length bs + 2) / 3))%nat.
Proof.
  assert (H : forall n (l : bytes), (List.length l <= n)%nat ->
              String.length (b64encode l) = (4 * ((List.length l + 2) / 3))%nat).
  { induction n as [| n IH]; intros l Hl.
    - destruct l; [reflexivity | simpl in Hl; lia].
    - destruct l as [| a [| b [| c rest]]]; try reflexivity.
      cbn [b64encode String.length List.length].
      rewrite IH by (simpl in Hl; lia).
      replace (S (S (S (List.length rest))) + 2)%nat
        with (1 * 3 + (List.length rest + 2))%nat by lia.
      rewrite Nat.div_add_l by discriminate. lia. }
  apply (H (List.length bs)). apply le_n.
Qed.

Section Properties.

Variable py : builtins.

(** ** The tables of [create_webp], [push_to_tidbyt] and the loop body *)

Lemma create_webp_table (w : tick) (self : tracker) :
  create_webp py w self =
  match get_bitcoin_price w self with
  | (Raise e, s, o) => (Raise e, s, o)
  | (Ok price, s, o) =>
      if is_None price then (Ok None, s, o)
      else
        match py_int py price with
        | Raise e => (Raise e, s, o)
        | Ok n =>
            let post := Http (POST_data PIXLET_RENDER_URL (render_code n)) in
            match w.(render_api) with
            | Raise e =>
                if is_Exception e
                then (Ok None, s, o ++ [post; Print (ErrorCreatingWebP e)])
                else (Raise e, s, o ++ [post])
            | Ok response =>
                if response.(status_code) =? 200
                then (Ok (Some response.(content)), s, o ++ [post])
                else (Ok None, s,
                      o ++ [post; Print (FailedToRenderWebP response.(status_code))])
            end
        end
  end.
Proof.
  unfold create_webp. run_py.
  destruct (get_bitcoin_price w self) as [[[price | e] s] o]; [| reflexivity].
  destruct (is_None price); simpl; [rewrite app_nil_r; reflexivity |].
  destruct (py_int py price) as [n | e]; simpl; [| rewrite app_nil_r; reflexivity].
  destruct (render_api w) as [resp | e]; simpl.
  - destruct (status_code resp =? 200); simpl; reflexivity.
  - destruct (is_Exception e); simpl; reflexivity.
Qed.

Lemma push_to_tidbyt_table (w : tick) (self : tracker) :
  push_to_tidbyt py w self =
  match create_webp py w self with
  | (Raise e, s, o) => (Raise e, s, o)
  | (Ok None, s, o) | (Ok (Some []), s, o) => (Ok false, s, o)
  | (Ok (Some (b :: bs)), s, o) =>
      let post :=
        Http (POST_json (TIDBYT_API_URL (py_str py s.(device_id)))
                        (push_headers py s)
                        (push_data (b64encode (b :: bs)))) in
      match w.(push_api) with
      | Raise e =>
          if is_Exception e
          then (Ok false, s, o ++ [post; Print (ErrorPushing e)])
          else (Raise e, s, o ++ [post])
      | Ok response =>
          if response.(status_code) =? 200
          then (Ok true, s, o ++ [post; Print PushedToTidbyt])
          else (Ok false, s,
                o ++ [post; Print (FailedToPush response.(status_code));
                      Print (PushResponseText response.(text))])
      end
  end.
Proof.
  unfold push_to_tidbyt. run_py.
  destruct (create_webp py w self) as [[[webp | e] s] o]; [| reflexivity].
  destruct webp as [[| b bs] |]; simpl; try (rewrite app_nil_r; reflexivity).
  destruct (push_api w) as [resp | e]; simpl.
  - destruct (status_code resp =? 200); simpl; reflexivity.
  - destruct (is_Exception e); simpl; reflexivity.
Qed.

Lemma iteration_table (update_interval : Z) (w : tick) (self : tracker) :
  iteration py update_interval w self =
  match push_to_tidbyt py w self with
  | (Raise e, s, o) => (Raise e, s, o)
  | (Ok success, s, o) =>
      let o' := o ++ (if success then [] else [Print FailedToUpdate]) in
      match sleep_refusal update_interval with
      | Some e => (Raise e, s, o')
      | None => (w.(sleep_api), s, o' ++ [Sleep update_interval])
      end
  end.
Proof.
  unfold iteration. run_py.
  destruct (push_to_tidbyt py w self) as [[[success | e] s] o]; [| reflexivity].
  destruct success; simpl;
    destruct (sleep_refusal update_interval); simpl;
    try destruct (sleep_api w) as [[] | e0]; simpl;
    rewrite <- ?app_assoc; simpl; rewrite ?app_nil_r; reflexivity.
Qed.

(** The loop body after a read that determines [push_to_tidbyt], for a
    length that is not negative. *)
Lemma iteration_after_push (update_interval : Z) (w : tick)
      (self s : tracker) (success : bool) (o : list event) :
  0 <= update_interval ->
  push_to_tidbyt py w self = (Ok success, s, o) ->
  iteration py update_interval w self =
  let o' := o ++ (if success then [] else [Print FailedToUpdate]) in
  if update_interval <? SLEEP_LIMIT
  then (w.(sleep_api), s, o' ++ [Sleep update_interval])
  else (Raise OverflowError, s, o').
Proof.
  intros Hint Hpush. rewrite iteration_table, Hpush. cbv zeta.
  rewrite (sleep_refusal_nonneg _ Hint).
  destruct (update_interval <? SLEEP_LIMIT); reflexivity.
Qed.

(** [create_webp] and [push_to_tidbyt] assign nothing: the object they leave
    is the one the read of the price left. *)
Lemma create_webp_state (w : tick) (self : tracker) :
  state_after (create_webp py w self) = state_after (get_bitcoin_price w self).
Proof.
  rewrite create_webp_table.
  destruct (get_bitcoin_price w self) as [[[price | e] s] o]; [| reflexivity].
  cbv zeta. repeat split_goal_match; reflexivity.
Qed.

Lemma push_to_tidbyt_state (w : tick) (self : tracker) :
  state_after (push_to_tidbyt py w self) = state_after (get_bitcoin_price w self).
Proof.
  rewrite <- create_webp_state, push_to_tidbyt_table.
  destruct (create_webp py w self) as [[[webp | e] s] o]; [| reflexivity].
  cbv zeta. repeat split_goal_match; reflexivity.
Qed.

Lemma iteration_state (update_interval : Z) (w : tick) (self : tracker) :
  state_after (iteration py update_interval w self) =
  state_after (get_bitcoin_price w self).
Proof.
  rewrite <- push_to_tidbyt_state, iteration_table.
  destruct (push_to_tidbyt py w self) as [[[success | e] s] o]; [| reflexivity].
  cbv zeta. repeat split_goal_match; reflexivity.
Qed.

(** ** Failed fetch, empty render *)

(** A read that returns [None] has printed one of its two failure lines. *)
Lemma no_price_is_reported (w : tick) (self self1 : tracker) (out1 : list event) :
  get_bitcoin_price w self = (Ok PNone, self1, out1) ->
  exists m, In (Print m) out1 /\ fetch_failure_line m.
Proof.
  destruct (cache_valid self w.(now)) eqn:Hv.
  - rewrite get_bitcoin_price_hit by assumption. intros H.
    inversion H as [[Hp Hs Ho]]. unfold cache_valid in Hv.
    rewrite Hp in Hv. discriminate.
  - rewrite get_bitcoin_price_fetch by assumption. cbv zeta.
    unfold fetch_failure_line.
    destruct (price_api w) as [resp | e0].
    + destruct (status_code resp =? 200).
      * destruct (rate_float resp) as [price | e1].
        -- destruct (format_2f price) as [shown | ef] eqn:Hf.
           ++ intros H. inversion H; subst. discriminate.
           ++ destruct (is_Exception ef); intros H; inversion H; subst.
              exists (ErrorFetchingPrice ef).
              split; [simpl; auto | right; eexists; reflexivity].
        -- destruct (is_Exception e1); intros H; inversion H; subst.
           exists (ErrorFetchingPrice e1).
           split; [simpl; auto | right; eexists; reflexivity].
      * intros H. inversion H; subst.
        exists (FailedToFetchPrice (status_code resp)).
        split; [simpl; auto | left; eexists; reflexivity].
    + destruct (is_Exception e0); intros H; inversion H; subst.
      exists (ErrorFetchingPrice e0).
      split; [simpl; auto | right; eexists; reflexivity].
Qed.

(** C6. When the read of the price returns [None], it has printed a failure
    line; [create_webp] returns [None] and [push_to_tidbyt] returns [False]
    with no event of their own, so neither the render request nor the push
    request is sent; the loop body prints its retry line and goes on to
    [time.sleep] (which refuses a length of [SLEEP_LIMIT] seconds or more
    with [OverflowError]). *)
Theorem failed_fetch_aborts_iteration (update_interval : Z) (w : tick)
        (self self1 : tracker) (out1 : list event) :
  0 <= update_interval ->
  get_bitcoin_price w self = (Ok PNone, self1, out1) ->
  (exists m, In (Print m) out1 /\ fetch_failure_line m) /\
  create_webp py w self = (Ok None, self1, out1) /\
  push_to_tidbyt py w self = (Ok false, self1, out1) /\
  iteration py update_interval w self =
  (if update_interval <? SLEEP_LIMIT
   then (w.(sleep_api), self1,
         out1 ++ [Print FailedToUpdate; Sleep update_interval])
   else (Raise OverflowError, self1, out1 ++ [Print FailedToUpdate])) /\
  (forall r,
      In (Http r) (events (iteration py update_interval w self)) ->
      r = GET COINDESK_PRICE_URL).
Proof.
  intros Hint Hread.
  assert (Hc : create_webp py w self = (Ok None, self1, out1))
    by (rewrite create_webp_table, Hread; reflexivity).
  assert (Hp : push_to_tidbyt py w self = (Ok false, self1, out1))
    by (rewrite push_to_tidbyt_table, Hc; reflexivity).
  assert (Hi : iteration py update_interval w self =
               (if update_interval <? SLEEP_LIMIT
                then (w.(sleep_api), self1,
                      out1 ++ [Print FailedToUpdate; Sleep update_interval])
                else (Raise OverflowError, self1, out1 ++ [Print FailedToUpdate]))).
  { rewrite (iteration_after_push _ _ _ _ _ _ Hint Hp). cbv zeta.
    rewrite <- app_assoc. reflexivity. }
  repeat split; try assumption.
  - exact (no_price_is_reported _ _ _ _ Hread).
  - intros r. rewrite Hi. unfold events.
    destruct (update_interval <? SLEEP_LIMIT); simpl; rewrite in_app_iff;
      (intros [Hin | Hin];
       [apply (get_bitcoin_price_requests w self); rewrite Hread; exact Hin |]);
      simpl in Hin; repeat (destruct Hin as [Hin | Hin]; try discriminate);
      destruct Hin.
Qed.

(** C9. When a price was read and converts, and the rendering endpoint
    answers 200 with an empty body, [create_webp] returns the empty [bytes]
    (not [None]); [push_to_tidbyt] takes it for a failure and returns [False]
    after the render request, with no push request; the loop body prints its
    retry line and goes on to [time.sleep] (which refuses a length of
    [SLEEP_LIMIT] seconds or more with [OverflowError]). *)
Theorem empty_render_is_failure (update_interval : Z) (w : tick)
        (self self1 : tracker) (out1 : list event) (price : pyval) (n : Z)
        (rendered : response) :
  0 <= update_interval ->
  get_bitcoin_price w self = (Ok price, self1, out1) ->
  is_None price = false ->
  py_int py price = Ok n ->
  w.(render_api) = Ok rendered ->
  rendered.(status_code) = 200 ->
  rendered.(content) = [] ->
  let post := Http (POST_data PIXLET_RENDER_URL (render_code n)) in
  create_webp py w self = (Ok (Some []), self1, out1 ++ [post]) /\
  push_to_tidbyt py w self = (Ok false, self1, out1 ++ [post]) /\
  iteration py update_interval w self =
  (if update_interval <? SLEEP_LIMIT
   then (w.(sleep_api), self1,
         out1 ++ [post; Print FailedToUpdate; Sleep update_interval])
   else (Raise OverflowError, self1, out1 ++ [post; Print FailedToUpdate])) /\
  forallb (fun ev => negb (is_push_request ev))
          (events (iteration py update_interval w self)) = true.
Proof.
  intros Hint Hread Hsome Hconv Hrender Hstatus Hbody post.
  assert (Hc : create_webp py w self = (Ok (Some []), self1, out1 ++ [post])).
  { rewrite create_webp_table, Hread, Hsome, Hconv, Hrender, Hstatus, Hbody.
    reflexivity. }
  assert (Hp : push_to_tidbyt py w self = (Ok false, self1, out1 ++ [post]))
    by (rewrite push_to_tidbyt_table, Hc; reflexivity).
  assert (Hi : iteration py update_interval w self =
               (if update_interval <? SLEEP_LIMIT
                then (w.(sleep_api), self1,
                      out1 ++ [post; Print FailedToUpdate; Sleep update_interval])
                else (Raise OverflowError, self1,
                      out1 ++ [post; Print FailedToUpdate]))).
  { rewrite (iteration_after_push _ _ _ _ _ _ Hint Hp). cbv zeta.
    rewrite <- !app_assoc. reflexivity. }
  repeat split; try assumption.
  assert (Hout1 : forallb (fun ev => negb (is_push_request ev)) out1 = true).
  { apply forallb_forall. intros ev Hin.
    destruct ev as [m | r | secs]; try reflexivity.
    assert (Hr : r = GET COINDESK_PRICE_URL).
    { apply (get_bitcoin_price_requests w self). rewrite Hread. exact Hin. }
    rewrite Hr. reflexivity. }
  rewrite Hi. unfold events.
  destruct (update_interval <? SLEEP_LIMIT); simpl; rewrite forallb_app, Hout1;
    reflexivity.
Qed.

(** ** Render and push *)

(** The read of the price keeps the credentials. *)
Lemma get_bitcoin_price_keeps_credentials (w : tick) (self : tracker) :
  (state_after (get_bitcoin_price w self)).(device_id) = self.(device_id) /\
  (state_after (get_bitcoin_price w self)).(api_key) = self.(api_key).
Proof.
  destruct (get_bitcoin_price_state w self) as [H | [price [_ H]]];
    rewrite H; split; reflexivity.
Qed.

(** C3, as amended.  When the read gives a price that [int] converts to [n],
    [create_webp] posts the Starlark program for [n] to the rendering
    endpoint; the program calls [render.Text] on the label, which is a
    dollar sign followed by [n] in decimal; and for a finite float price [n]
    is the price with its fraction dropped (truncation toward zero, not
    rounding). *)
Theorem label_is_dollar_and_truncated_price (w : tick) (self self1 : tracker)
        (out1 : list event) (price : pyval) (n : Z) :
  get_bitcoin_price w self = (Ok price, self1, out1) ->
  is_None price = false ->
  py_int py price = Ok n ->
  (exists r out2,
      create_webp py w self =
      (r, self1, out1 ++ Http (POST_data PIXLET_RENDER_URL (render_code n)) :: out2)) /\
  (exists before after,
      render_code n =
      (before ++ text_call ("$" ++ str_of_int n) ++ after)%string) /\
  (forall s m e, price = PFloat (S754_finite s m e) -> truncates n s m e).
Proof.
  intros Hread Hsome Hconv. split; [| split].
  - rewrite create_webp_table, Hread, Hsome, Hconv. cbv zeta.
    destruct (render_api w) as [rendered | e].
    + destruct (status_code rendered =? 200); eauto.
    + destruct (is_Exception e); eauto.
  - exact (render_code_label n).
  - intros s m e Hprice. subst price.
    destruct (int_of_float_truncates s m e) as [n' [Hn' Ht]].
    change (py_int py (PFloat (S754_finite s m e)))
      with (int_of_float (S754_finite s m e)) in Hconv.
    congruence.
Qed.

(** C5, as amended.  When [create_webp] returns bytes that are not empty,
    they are the body of the 200 answer of the rendering endpoint, and
    [push_to_tidbyt] posts to the push URL of the device, with the bearer
    header, the JSON object whose [image] is the base64 text of exactly
    those bytes, whose [installation_id] is [bitcoin-tracker] and whose
    [background] is [True].  When the device API answers, the method returns
    [True] exactly for status 200, and otherwise prints the status and the
    body of the answer. *)
Theorem push_sends_encoded_image (w : tick) (self self1 : tracker)
        (out1 : list event) (b : Byte.byte) (bs : bytes) :
  create_webp py w self = (Ok (Some (b :: bs)), self1, out1) ->
  let post :=
    Http (POST_json
            (TIDBYT_API_URL (py_str py self.(device_id)))
            [("Authorization", "Bearer " ++ py_str py self.(api_key));
             ("Content-Type", "application/json")]%string
            (PDict [("image", PStr (b64encode (b :: bs)));
                    ("installation_id", PStr "bitcoin-tracker");
                    ("background", PBool true)])) in
  (exists rendered,
      w.(render_api) = Ok rendered /\
      rendered.(status_code) = 200 /\
      rendered.(content) = b :: bs) /\
  exists r out2,
    push_to_tidbyt py w self = (r, self1, out1 ++ post :: out2) /\
    forall pushed,
      w.(push_api) = Ok pushed ->
      r = Ok (pushed.(status_code) =? 200) /\
      out2 = if pushed.(status_code) =? 200
             then [Print PushedToTidbyt]
             else [Print (FailedToPush pushed.(status_code));
                   Print (PushResponseText pushed.(text))].
Proof.
  intros Hc post. split.
  - rewrite create_webp_table in Hc.
    destruct (get_bitcoin_price w self) as [[[price | e0] s] o];
      [| discriminate].
    destruct (is_None price); [discriminate |].
    destruct (py_int py price) as [n | e0]; [| discriminate].
    cbv zeta in Hc.
    destruct (render_api w) as [rendered | e0].
    + exists rendered. split; [reflexivity |].
      destruct (status_code rendered =? 200) eqn:Hs; [| discriminate].
      apply Z.eqb_eq in Hs. inversion Hc. auto.
    + destruct (is_Exception e0); discriminate.
  - assert (Hstate : self1 = state_after (get_bitcoin_price w self)).
    { rewrite <- create_webp_state, Hc. reflexivity. }
    destruct (get_bitcoin_price_keeps_credentials w self) as [Hdev Hkey].
    rewrite <- Hstate in Hdev, Hkey.
    rewrite push_to_tidbyt_table, Hc. cbv zeta.
    unfold push_headers, push_data. rewrite Hdev, Hkey. fold post.
    destruct (push_api w) as [pushed | e0].
    + destruct (status_code pushed =? 200) eqn:Hs.
      * eexists. eexists. split; [reflexivity |].
        intros p Hp. inversion Hp; subst. rewrite Hs. auto.
      * eexists. eexists. split; [reflexivity |].
        intros p Hp. inversion Hp; subst. rewrite Hs. auto.
    + destruct (is_Exception e0); eexists; eexists;
        (split; [reflexivity | intros p Hp; discriminate]).
Qed.

(** ** The loop *)

Lemma sleeps_app (a b : list event) : sleeps (a ++ b) = (sleeps a + sleeps b)%nat.
Proof. unfold sleeps. rewrite filter_app, length_app. reflexivity. Qed.

Lemma py_int_raises (v : pyval) (e : exn) :
  py_int py v = Raise e -> is_Exception e = true.
Proof.
  destruct v as [| b | n | f | s | l | d]; simpl; intros H;
    try discriminate; try (inversion H; reflexivity).
  - destruct f as [s | s | | s m x]; simpl in H; inversion H; reflexivity.
  - destruct (int_of_str py s); inversion H; reflexivity.
Qed.

Lemma push_to_tidbyt_sleeps (w : tick) (self : tracker) :
  sleeps (events (push_to_tidbyt py w self)) = 0%nat.
Proof.
  rewrite push_to_tidbyt_table, create_webp_table.
  pose proof (get_bitcoin_price_sleeps w self) as H0.
  destruct (get_bitcoin_price w self) as [[[price | e] s] o]; simpl in H0;
    [| exact H0].
  cbv zeta. unfold events.
  repeat split_goal_match;
    rewrite ?sleeps_app, ?H0; try reflexivity; try exact H0;
    rewrite <- ?app_assoc, ?sleeps_app, ?H0; reflexivity.
Qed.

Lemma no_interrupt_render (w : tick) (e : exn) :
  w.(render_api) = Raise e -> is_Exception e = false -> no_interrupt w = false.
Proof.
  intros H He. unfold no_interrupt. rewrite H. simpl. rewrite He.
  rewrite andb_false_r. reflexivity.
Qed.

Lemma no_interrupt_push (w : tick) (e : exn) :
  w.(push_api) = Raise e -> is_Exception e = false -> no_interrupt w = false.
Proof.
  intros H He. unfold no_interrupt. rewrite H. simpl. rewrite He.
  rewrite andb_false_r. reflexivity.
Qed.

Lemma no_interrupt_sleep (w : tick) (e : exn) :
  w.(sleep_api) = Raise e -> is_Exception e = false -> no_interrupt w = false.
Proof.
  intros H He. unfold no_interrupt. rewrite H. simpl. rewrite He.
  apply andb_false_r.
Qed.

(** What leaves [push_to_tidbyt]: an interrupt that answered one of the
    calls, or the exception of [int(price)].  A failed fetch, render or push
    does not. *)
Lemma push_to_tidbyt_raises (w : tick) (self self1 : tracker) (e : exn)
      (out : list event) :
  push_to_tidbyt py w self = (Raise e, self1, out) ->
  (is_Exception e = false /\ no_interrupt w = false) \/
  (is_Exception e = true /\
   exists price s1 o1,
     get_bitcoin_price w self = (Ok price, s1, o1) /\
     is_None price = false /\
     py_int py price = Raise e).
Proof.
  rewrite push_to_tidbyt_table, create_webp_table.
  destruct (get_bitcoin_price w self) as [[[price | e0] s] o] eqn:Hread.
  - destruct (is_None price) eqn:Hsome; [discriminate |].
    destruct (py_int py price) as [n | e1] eqn:Hconv.
    + cbv zeta.
      destruct (render_api w) as [rendered | e2] eqn:Hrender.
      * destruct (status_code rendered =? 200); [| discriminate].
        destruct (content rendered) as [| b bs]; [discriminate |].
        destruct (push_api w) as [pushed | e3] eqn:Hpush.
        -- destruct (status_code pushed =? 200); discriminate.
        -- destruct (is_Exception e3) eqn:He; [discriminate |].
           intros H. inversion H; subst. left.
           split; [assumption | exact (no_interrupt_push _ _ Hpush He)].
      * destruct (is_Exception e2) eqn:He; [discriminate |].
        intros H. inversion H; subst. left.
        split; [assumption | exact (no_interrupt_render _ _ Hrender He)].
    + intros H. inversion H; subst. right.
      split; [exact (py_int_raises _ _ Hconv) |].
      do 3 eexists. repeat split; eassumption.
  - intros H. inversion H; subst. left.
    exact (get_bitcoin_price_raises _ _ _ _ _ Hread).
Qed.

(** The loop body either reaches the end of its sleep, having slept once, or
    is left by an interrupt or by an exception of class [Exception]: one
    that escaped the update, or the refusal of the length by [time.sleep]. *)
Lemma iteration_cases (update_interval : Z) (w : tick) (self self1 : tracker)
      (r : result unit) (out : list event) :
  iteration py update_interval w self = (r, self1, out) ->
  (r = Ok tt /\ sleeps out = 1%nat) \/
  exists e, r = Raise e /\
    ((is_Exception e = false /\ no_interrupt w = false) \/
     (is_Exception e = true /\
      (escapes py w self e \/ sleep_refusal update_interval = Some e))).
Proof.
  rewrite iteration_table.
  pose proof (push_to_tidbyt_sleeps w self) as H0.
  destruct (push_to_tidbyt py w self) as [[[success | e] s] o] eqn:Hpush.
  - cbv zeta. unfold events in H0. simpl in H0.
    destruct (sleep_refusal update_interval) as [e |] eqn:Href.
    + intros H. inversion H; subst. right. exists e. split; [reflexivity |].
      right. split; [exact (sleep_refusal_is_Exception _ _ Href) |].
      right. reflexivity.
    + intros H. inversion H; subst.
      destruct (sleep_api w) as [[] | e] eqn:Hsleep.
      * left. split; [reflexivity |].
        rewrite !sleeps_app, H0. destruct success; reflexivity.
      * right. exists e. split; [reflexivity |].
        destruct (is_Exception e) eqn:He.
        -- right. split; [reflexivity | left; left; exact Hsleep].
        -- left. split; [reflexivity | exact (no_interrupt_sleep _ _ Hsleep He)].
  - intros H. inversion H; subst. right. exists e. split; [reflexivity |].
    destruct (push_to_tidbyt_raises _ _ _ _ _ Hpush) as [Hk | [He Hesc]].
    + left. exact Hk.
    + right. split; [exact He | left; right; exact Hesc].
Qed.

(** The [while True] over the ticks given: either every iteration completed,
    with one sleep each, or some iteration was left by an exception after
    the iterations before it completed. *)
Lemma while_True_cases (update_interval : Z) (ws : list tick) :
  forall (self self1 : tracker) (r : result unit) (out : list event),
    while_True (iteration py update_interval) ws self = (r, self1, out) ->
    (r = Ok tt /\ sleeps out = List.length ws) \/
    exists before w after s o e,
      ws = before ++ w :: after /\
      while_True (iteration py update_interval) before self = (Ok tt, s, o) /\
      outcome (iteration py update_interval w s) = Raise e /\
      r = Raise e /\
      ((is_Exception e = false /\ no_interrupt w = false) \/
       (is_Exception e = true /\
        (escapes py w s e \/ sleep_refusal update_interval = Some e))).
Proof.
  induction ws as [| w ws IH]; intros self self1 r out Hrun.
  - simpl in Hrun. unfold ret in Hrun. inversion Hrun; subst.
    left. split; reflexivity.
  - simpl in Hrun. unfold bind in Hrun.
    destruct (iteration py update_interval w self) as [[[[] | e] s] o] eqn:Hit.
    + destruct (while_True (iteration py update_interval) ws s)
        as [[r2 s2] o2] eqn:Hrest.
      inversion Hrun; subst.
      destruct (iteration_cases _ _ _ _ _ _ Hit) as [[_ Hone] | [e [He _]]];
        [| discriminate].
      destruct (IH _ _ _ _ Hrest)
        as [[Hok Hn] | [before [w' [after [s' [o' [e [Hws [Hpre [Hout [Hr Hc]]]]]]]]]]].
      * left. split; [assumption |].
        rewrite sleeps_app, Hone, Hn. reflexivity.
      * right. exists (w :: before), w', after, s', (o ++ o'), e.
        split; [rewrite Hws; reflexivity |].
        split; [simpl; unfold bind; rewrite Hit, Hpre; reflexivity |].
        auto.
    + inversion Hrun; subst. right.
      exists [], w, ws, self, [], e.
      split; [reflexivity |]. split; [reflexivity |].
      split; [rewrite Hit; reflexivity |]. split; [reflexivity |].
      destruct (iteration_cases _ _ _ _ _ _ Hit) as [[Hok _] | [e' [He Hc]]];
        [discriminate |].
      inversion He; subst. exact Hc.
Qed.

(** The function around the loop: it prints its first line, and an
    exception of the loop is printed by one of the two handlers, after which
    the function returns. *)
Lemma run_continuous_updates_table (update_interval : Z) (ws : list tick)
      (self : tracker) :
  run_continuous_updates py update_interval ws self =
  let start := Print (StartingUpdates update_interval) in
  match while_True (iteration py update_interval) ws self with
  | (Ok _, s, o) => (Ok Looping, s, start :: o)
  | (Raise e, s, o) =>
      (Ok Returned, s,
       start :: o ++ [Print (if is_KeyboardInterrupt e then StoppingTracker
                             else UnexpectedError e)])
  end.
Proof.
  unfold run_continuous_updates. run_py.
  destruct (while_True (iteration py update_interval) ws self)
    as [[[[] | e] s] o]; simpl.
  - rewrite app_nil_r. reflexivity.
  - destruct e; reflexivity.
Qed.

Lemma not_Exception_is_interrupt (e : exn) :
  is_Exception e = false -> is_KeyboardInterrupt e = true.
Proof. destruct e; simpl; congruence. Qed.

Lemma Exception_is_not_interrupt (e : exn) :
  is_Exception e = true -> is_KeyboardInterrupt e = false.
Proof. destruct e; simpl; congruence. Qed.

(** A failed fetch is printed and makes [push_to_tidbyt] return [False]. *)
Lemma fetch_failure_returns_False (w : tick) (self : tracker) (line : message) :
  cache_valid self w.(now) = false ->
  fetch_failure w = Some line ->
  exists s1,
    push_to_tidbyt py w self =
    (Ok false, s1, [Http (GET COINDESK_PRICE_URL); Print line]).
Proof.
  intros Hmiss Hfail.
  rewrite push_to_tidbyt_table, create_webp_table.
  rewrite get_bitcoin_price_fetch by assumption. cbv zeta.
  unfold fetch_failure in Hfail.
  destruct (price_api w) as [resp | e0].
  - destruct (status_code resp =? 200).
    + destruct (rate_float resp) as [price | e1].
      * destruct (format_2f price) as [shown | ef] eqn:Hf; [discriminate |].
        rewrite (format_2f_raises _ _ Hf). inversion Hfail; subst.
        eexists. reflexivity.
      * destruct (is_Exception e1); inversion Hfail; subst.
        eexists. reflexivity.
    + inversion Hfail; subst. eexists. reflexivity.
  - destruct (is_Exception e0); inversion Hfail; subst.
    eexists. reflexivity.
Qed.

(** A failed render is printed and makes [push_to_tidbyt] return [False]. *)
Lemma render_failure_returns_False (w : tick) (self self1 : tracker)
      (out1 : list event) (price : pyval) (n : Z) (line : message) :
  get_bitcoin_price w self = (Ok price, self1, out1) ->
  is_None price = false ->
  py_int py price = Ok n ->
  render_failure w = Some line ->
  push_to_tidbyt py w self =
  (Ok false, self1,
   out1 ++ [Http (POST_data PIXLET_RENDER_URL (render_code n)); Print line]).
Proof.
  intros Hread Hsome Hconv Hfail.
  rewrite push_to_tidbyt_table, create_webp_table, Hread, Hsome, Hconv.
  cbv zeta. unfold render_failure in Hfail.
  destruct (render_api w) as [rendered | e].
  - destruct (status_code rendered =? 200); inversion Hfail; reflexivity.
  - destruct (is_Exception e); inversion Hfail; reflexivity.
Qed.

(** A failed push is printed and makes [push_to_tidbyt] return [False]. *)
Lemma push_failure_returns_False (w : tick) (self self1 : tracker)
      (out1 : list event) (b : Byte.byte) (bs : bytes) (lines : list message) :
  create_webp py w self = (Ok (Some (b :: bs)), self1, out1) ->
  push_failure w = Some lines ->
  push_to_tidbyt py w self =
  (Ok false, self1,
   out1 ++ Http (POST_json (TIDBYT_API_URL (py_str py self1.(device_id)))
                           (push_headers py self1)
                           (push_data (b64encode (b :: bs))))
        :: map Print lines).
Proof.
  intros Hc Hfail. rewrite push_to_tidbyt_table, Hc. cbv zeta.
  unfold push_failure in Hfail.
  destruct (push_api w) as [pushed | e].
  - destruct (status_code pushed =? 200); inversion Hfail; reflexivity.
  - destruct (is_Exception e); inversion Hfail; reflexivity.
Qed.

(** C1, as amended.  With a sleep length that is not negative:
    (1) a failure of the fetch, of the render or of the push (a status other
    than 200, or an exception of class [Exception]) is logged and swallowed:
    the method prints the line of that failure after the request and
    [push_to_tidbyt] returns [False];
    (2) when [push_to_tidbyt] returns [False], the loop body prints its retry
    line and goes on to [time.sleep] (which refuses a length of [SLEEP_LIMIT]
    seconds or more with [OverflowError]);
    (3) an exception of class [Exception] leaves [push_to_tidbyt] only when
    [int(price)] raised it;
    (4) after any number of ticks either the loop is still running and has
    slept once per tick, or the function has returned because one iteration,
    after the ones before it completed, was left by an exception: an
    interrupt that answered one of its calls, after which the stopping line
    is printed, or an exception of class [Exception] that escaped the body
    or with which [time.sleep] refused the length, after which the
    unexpected-error line is printed by the handler around the whole loop. *)
Theorem loop_ends_on_interrupt_or_escape (update_interval : Z) (ws : list tick)
        (self self' : tracker) (r : result progress) (out : list event) :
  0 <= update_interval ->
  run_continuous_updates py update_interval ws self = (r, self', out) ->
  ((forall w s line,
       cache_valid s w.(now) = false ->
       fetch_failure w = Some line ->
       exists s1,
         push_to_tidbyt py w s =
         (Ok false, s1, [Http (GET COINDESK_PRICE_URL); Print line])) /\
   (forall w s s1 o1 price n line,
       get_bitcoin_price w s = (Ok price, s1, o1) ->
       is_None price = false ->
       py_int py price = Ok n ->
       render_failure w = Some line ->
       push_to_tidbyt py w s =
       (Ok false, s1,
        o1 ++ [Http (POST_data PIXLET_RENDER_URL (render_code n)); Print line])) /\
   (forall w s s1 o1 b bs lines,
       create_webp py w s = (Ok (Some (b :: bs)), s1, o1) ->
       push_failure w = Some lines ->
       push_to_tidbyt py w s =
       (Ok false, s1,
        o1 ++ Http (POST_json (TIDBYT_API_URL (py_str py s1.(device_id)))
                              (push_headers py s1)
                              (push_data (b64encode (b :: bs))))
           :: map Print lines))) /\
  (forall w s s1 o1,
      push_to_tidbyt py w s = (Ok false, s1, o1) ->
      iteration py update_interval w s =
      (if update_interval <? SLEEP_LIMIT
       then (w.(sleep_api), s1,
             o1 ++ [Print FailedToUpdate; Sleep update_interval])
       else (Raise OverflowError, s1, o1 ++ [Print FailedToUpdate]))) /\
  (forall w s s1 o1 e,
      push_to_tidbyt py w s = (Raise e, s1, o1) ->
      is_Exception e = true ->
      exists price s2 o2,
        get_bitcoin_price w s = (Ok price, s2, o2) /\
        is_None price = false /\
        py_int py price = Raise e) /\
  ((r = Ok Looping /\ sleeps out = List.length ws) \/
   (r = Ok Returned /\
    exists before w after s o e,
      ws = before ++ w :: after /\
      while_True (iteration py update_interval) before self = (Ok tt, s, o) /\
      outcome (iteration py update_interval w s) = Raise e /\
      ((is_Exception e = false /\ no_interrupt w = false /\
        exists out0, out = out0 ++ [Print StoppingTracker]) \/
       (is_Exception e = true /\
        (escapes py w s e \/ sleep_refusal update_interval = Some e) /\
        exists out0, out = out0 ++ [Print (UnexpectedError e)])))).
Proof.
  intros Hint Hrun. split; [| split; [| split]].
  - split; [| split].
    + intros w s line Hmiss Hfail.
      exact (fetch_failure_returns_False w s line Hmiss Hfail).
    + intros w s s1 o1 price n line Hread Hsome Hconv Hfail.
      exact (render_failure_returns_False w s s1 o1 price n line
               Hread Hsome Hconv Hfail).
    + intros w s s1 o1 b bs lines Hc Hfail.
      exact (push_failure_returns_False w s s1 o1 b bs lines Hc Hfail).
  - intros w s s1 o1 Hpush.
    rewrite (iteration_after_push _ _ _ _ _ _ Hint Hpush). cbv zeta.
    rewrite <- app_assoc. reflexivity.
  - intros w s s1 o1 e Hpush He.
    destruct (push_to_tidbyt_raises _ _ _ _ _ Hpush) as [[Hk _] | [_ Hesc]];
      [congruence | exact Hesc].
  - rewrite run_continuous_updates_table in Hrun. cbv zeta in Hrun.
    destruct (while_True (iteration py update_interval) ws self)
      as [[r1 s1] o1] eqn:Hloop.
    destruct (while_True_cases _ _ _ _ _ _ Hloop)
      as [[Hok Hn] | [before [w [after [s [o [e [Hws [Hpre [Hout [Hr Hc]]]]]]]]]]].
    + subst r1. inversion Hrun; subst. left. split; [reflexivity |].
      exact Hn.
    + subst r1. inversion Hrun; subst. right. split; [reflexivity |].
      exists before, w, after, s, o, e.
      split; [reflexivity |]. split; [assumption |]. split; [assumption |].
      destruct Hc as [[He Hk] | [He Hesc]].
      * left. split; [assumption |]. split; [assumption |].
        rewrite (not_Exception_is_interrupt _ He).
        exists (Print (StartingUpdates update_interval) :: o1). reflexivity.
      * right. split; [assumption |]. split; [assumption |].
        rewrite (Exception_is_not_interrupt _ He).
        exists (Print (StartingUpdates update_interval) :: o1). reflexivity.
Qed.

(** The price a read returns, when it is one, is the cached one or the one
    the tick offers. *)
Lemma get_bitcoin_price_returns (w : tick) (self self1 : tracker)
      (price : pyval) (out : list event) :
  get_bitcoin_price w self = (Ok price, self1, out) ->
  is_None price = false ->
  price = self.(last_price) \/ price_offered w = Some price.
Proof.
  destruct (cache_valid self w.(now)) eqn:Hv.
  - rewrite get_bitcoin_price_hit by assumption. intros H _.
    inversion H. auto.
  - rewrite get_bitcoin_price_fetch by assumption. cbv zeta.
    unfold price_offered.
    destruct (price_api w) as [resp | e0].
    + destruct (status_code resp =? 200).
      * destruct (rate_float resp) as [p | e1].
        -- destruct (format_2f p) as [shown | ef].
           ++ intros H _. inversion H; subst. auto.
           ++ destruct (is_Exception ef); intros H Hn; inversion H; subst;
                discriminate.
        -- destruct (is_Exception e1); intros H Hn; inversion H; subst;
             discriminate.
      * intros H Hn. inversion H; subst. discriminate.
    + destruct (is_Exception e0); intros H Hn; inversion H; subst;
        discriminate.
Qed.

(** An invariant of the object that every read of the price keeps is kept by
    the loop. *)
Lemma while_True_invariant (P : tracker -> Prop) (update_interval : Z)
      (ws : list tick) :
  (forall w s, In w ws -> P s -> P (state_after (get_bitcoin_price w s))) ->
  forall self, P self ->
    P (state_after (while_True (iteration py update_interval) ws self)).
Proof.
  induction ws as [| w ws IH]; intros Hstep self Hself.
  - exact Hself.
  - simpl. unfold bind.
    pose proof (iteration_state update_interval w self) as Hst.
    destruct (iteration py update_interval w self) as [[[[] | e] s] o].
    + unfold state_after in Hst at 1. simpl in Hst.
      assert (Hs : P s) by (rewrite Hst; apply Hstep; [left; reflexivity | exact Hself]).
      specialize (IH (fun w' s' Hin => Hstep w' s' (or_intror Hin)) s Hs).
      destruct (while_True (iteration py update_interval) ws s) as [[r2 s2] o2].
      exact IH.
    + unfold state_after in Hst at 1. simpl in Hst.
      unfold state_after at 1. simpl. rewrite Hst.
      apply Hstep; [left; reflexivity | exact Hself].
Qed.

Lemma run_continuous_updates_state (update_interval : Z) (ws : list tick)
      (self : tracker) :
  state_after (run_continuous_updates py update_interval ws self) =
  state_after (while_True (iteration py update_interval) ws self).
Proof.
  rewrite run_continuous_updates_table. cbv zeta.
  destruct (while_True (iteration py update_interval) ws self)
    as [[[[] | e] s] o]; reflexivity.
Qed.

(** The time to live stays the four minutes of [__init__] through any run. *)
Lemma run_keeps_ttl (update_interval : Z) (ws : list tick)
      (device_id api_key : pyval) :
  (state_after (run_continuous_updates py update_interval ws
                  (TidbytBitcoinTracker device_id api_key))).(cache_ttl) =
  timedelta_minutes 4.
Proof.
  rewrite run_continuous_updates_state.
  apply (while_True_invariant (fun s => s.(cache_ttl) = timedelta_minutes 4));
    [| reflexivity].
  intros w s _ Hs. rewrite get_bitcoin_price_keeps_ttl. exact Hs.
Qed.

(** When [time.sleep] accepts the length, no interrupt arrives, every sleep
    returns, and every price offered or cached converts to an int, the loop
    is still running after any number of ticks, and has slept once per
    tick. *)
Lemma loop_keeps_going (update_interval : Z) (ws : list tick) :
  sleep_refusal update_interval = None ->
  forallb (fun w => no_interrupt w && sleep_returns w && offers_convertible py w)
          ws = true ->
  forall self,
    cache_convertible py self = true ->
    exists s o,
      while_True (iteration py update_interval) ws self = (Ok tt, s, o) /\
      sleeps o = List.length ws.
Proof.
  intros Hint. induction ws as [| w ws IH]; intros Hall self Hcache.
  - exists self, []. split; reflexivity.
  - simpl in Hall. apply andb_true_iff in Hall. destruct Hall as [Hw Hall].
    apply andb_true_iff in Hw. destruct Hw as [Hw Hoffer].
    apply andb_true_iff in Hw. destruct Hw as [Hquiet Hsleep].
    simpl. unfold bind.
    pose proof (iteration_state update_interval w self) as Hst.
    destruct (iteration py update_interval w self) as [[r s] o] eqn:Hit.
    unfold state_after in Hst at 1. simpl in Hst.
    destruct (iteration_cases _ _ _ _ _ _ Hit)
      as [[Hok Hone] | [e [He [[_ Hk] | [_ [Hesc | Href]]]]]];
      [| | | congruence].
    + subst r.
      assert (Hs : cache_convertible py s = true).
      { rewrite Hst.
        destruct (get_bitcoin_price_state w self) as [H | [price [Hp H]]];
          rewrite H; [exact Hcache |].
        unfold offers_convertible in Hoffer. rewrite Hp in Hoffer.
        exact Hoffer. }
      destruct (IH Hall s Hs) as [s2 [o2 [Hrest Hn]]].
      rewrite Hrest. exists s2, (o ++ o2). split; [reflexivity |].
      rewrite sleeps_app, Hone, Hn. reflexivity.
    + congruence.
    + exfalso. destruct Hesc as [Hs | [price [s1 [o1 [Hread [Hsome Hconv]]]]]].
      * unfold sleep_returns in Hsleep. rewrite Hs in Hsleep. discriminate.
      * destruct (get_bitcoin_price_returns _ _ _ _ _ Hread Hsome) as [Hp | Hp].
        -- unfold cache_convertible, convertible in Hcache.
           rewrite <- Hp, Hsome, Hconv in Hcache. discriminate.
        -- unfold offers_convertible, convertible in Hoffer.
           rewrite Hp, Hsome, Hconv in Hoffer. discriminate.
Qed.

Corollary run_keeps_going (update_interval : Z) (ws : list tick)
          (self : tracker) :
  sleep_refusal update_interval = None ->
  forallb (fun w => no_interrupt w && sleep_returns w && offers_convertible py w)
          ws = true ->
  cache_convertible py self = true ->
  exists s o,
    run_continuous_updates py update_interval ws self = (Ok Looping, s, o) /\
    sleeps o = List.length ws.
Proof.
  intros Hint Hall Hcache.
  destruct (loop_keeps_going _ _ Hint Hall self Hcache) as [s [o [Hloop Hn]]].
  rewrite run_continuous_updates_table, Hloop. cbv zeta.
  exists s, (Print (StartingUpdates update_interval) :: o).
  split; [reflexivity | exact Hn].
Qed.

(** ** The sign of the cached price *)

(** C8, as amended.  The program never tests the sign of a price: the cache
    holds whatever the price API sent.  The invariant that a cached price is
    greater than zero is kept by the read of the price, by [create_webp], by
    [push_to_tidbyt] and by the whole loop, provided every price the API
    offers is greater than zero. *)
Theorem positive_offers_keep_cache_positive (update_interval : Z)
        (ws : list tick) (self : tracker) :
  cache_positive self = true ->
  forallb offers_positive ws = true ->
  cache_positive
    (state_after (run_continuous_updates py update_interval ws self)) = true /\
  (forall w, In w ws ->
     cache_positive (state_after (get_bitcoin_price w self)) = true /\
     cache_positive (state_after (create_webp py w self)) = true /\
     cache_positive (state_after (push_to_tidbyt py w self)) = true).
Proof.
  intros Hself Hall.
  assert (Hstep : forall w s, In w ws -> cache_positive s = true ->
                  cache_positive (state_after (get_bitcoin_price w s)) = true).
  { intros w s Hin Hs.
    destruct (get_bitcoin_price_state w s) as [H | [price [Hp H]]];
      rewrite H; [exact Hs |].
    rewrite forallb_forall in Hall. specialize (Hall w Hin).
    unfold offers_positive in Hall. rewrite Hp in Hall.
    unfold cache_positive. simpl. rewrite Hall. apply orb_true_r. }
  split.
  - rewrite run_continuous_updates_state.
    apply (while_True_invariant (fun s => cache_positive s = true));
      assumption.
  - intros w Hin. rewrite push_to_tidbyt_state, create_webp_state.
    pose proof (Hstep w self Hin Hself). auto.
Qed.

(** ** Startup *)

(** C7. When the config file is missing ([open] raises [FileNotFoundError]),
    or it decodes to an object without [device_id] or without [api_key],
    [main] prints the line that says what is wrong and returns: the only
    event of the run is that line, so no request is sent. *)
Theorem bad_config_aborts_startup (fs : startup) (ws : list tick) :
  fs.(open_config) = Raise FileNotFoundError \/
  (fs.(open_config) = Ok tt /\
   exists d, fs.(load_config) = Ok (PDict d) /\
             (lookup "device_id" d = None \/ lookup "api_key" d = None)) ->
  main py fs ws tt =
  (Ok Returned, tt,
   [Print (match fs.(open_config) with
           | Raise _ => PleaseCreateConfig
           | Ok _ => ConfigMustContain
           end)]).
Proof.
  unfold main, load_configuration. run_py.
  intros [Hopen | [Hopen [d [Hload Hfield]]]].
  - rewrite Hopen. reflexivity.
  - rewrite Hopen, Hload. simpl.
    destruct (lookup "device_id" d) as [dev |] eqn:Hd; simpl.
    + destruct Hfield as [Hf | Hf]; [discriminate |].
      rewrite Hf. reflexivity.
    + reflexivity.
Qed.

(** C10. When the config file opens and its content is not JSON
    ([json.load] raises [JSONDecodeError]), neither handler of [main]
    matches: the exception leaves [main] and nothing is printed. *)
Theorem invalid_json_config_is_uncaught (fs : startup) (ws : list tick) :
  fs.(open_config) = Ok tt ->
  fs.(load_config) = Raise JSONDecodeError ->
  main py fs ws tt = (Raise JSONDecodeError, tt, []).
Proof.
  intros Hopen Hload. unfold main, load_configuration. run_py.
  rewrite Hopen, Hload. reflexivity.
Qed.

End Properties.

(** ** Concrete runs *)

Lemma cache_read_witness :
  let self := remember fresh_tracker (PFloat float_100) 0 in
  get_bitcoin_price (good_tick 239999999 (PFloat float_42999_9) "RIFF") self =
  (Ok (PFloat float_100), self, [Print UsingCachedPrice]) /\
  exists out,
    events (get_bitcoin_price (good_tick 240000000 (PFloat float_42999_9) "RIFF") self) =
    Http (GET COINDESK_PRICE_URL) :: out.
Proof.
  intros self. split.
  - apply (proj1 (cache_read_follows_ttl
                    (good_tick 239999999 (PFloat float_42999_9) "RIFF") self
                    eq_refl) 0);
      [discriminate | reflexivity | reflexivity].
  - apply (proj2 (cache_read_follows_ttl
                    (good_tick 240000000 (PFloat float_42999_9) "RIFF") self
                    eq_refl)).
    right. right. exists 0. split; [reflexivity | discriminate].
Defined.

(** C3 at the input of the claim: for 42999.9 the program sent to the
    rendering endpoint calls [render.Text] on the label [$42999]; the bare
    digits are not what it holds. *)
Lemma label_is_not_bare_digits :
  let w := good_tick 0 (PFloat float_42999_9) "RIFF" in
  events (create_webp ascii_builtins w fresh_tracker) =
  [Http (GET COINDESK_PRICE_URL);
   Print (FetchedNewPrice (PFloat float_42999_9));
   Http (POST_data PIXLET_RENDER_URL (render_code 42999))] /\
  index 0 (text_call "$42999") (render_code 42999) = Some 703%nat /\
  index 0 (text_call "42999") (render_code 42999) = None /\
  price_label 42999 <> "42999".
Proof.
  intros w. split; [reflexivity |]. split; [reflexivity |].
  split; [reflexivity | discriminate].
Qed.

Lemma label_witness :
  let w := good_tick 0 (PFloat float_42999_9) "RIFF" in
  (exists r out2,
      create_webp ascii_builtins w fresh_tracker =
      (r, remember fresh_tracker (PFloat float_42999_9) 0,
       [Http (GET COINDESK_PRICE_URL);
        Print (FetchedNewPrice (PFloat float_42999_9))] ++
       Http (POST_data PIXLET_RENDER_URL (render_code 42999)) :: out2)) /\
  (exists before after,
      render_code 42999 =
      (before ++ text_call ("$" ++ str_of_int 42999) ++ after)%string) /\
  (forall s m e,
      PFloat float_42999_9 = PFloat (S754_finite s m e) -> truncates 42999 s m e).
Proof.
  intros w.
  apply (label_is_dollar_and_truncated_price ascii_builtins w fresh_tracker
           (remember fresh_tracker (PFloat float_42999_9) 0)
           [Http (GET COINDESK_PRICE_URL);
            Print (FetchedNewPrice (PFloat float_42999_9))]
           (PFloat float_42999_9) 42999);
    reflexivity.
Defined.

(** C5 at the input where it fails as stated: the rendering endpoint answers
    200 with an empty body, [create_webp] returns the bytes, and no push
    request follows. *)
Lemma empty_image_is_not_pushed :
  create_webp ascii_builtins tick_empty_render fresh_tracker =
  (Ok (Some []),
   remember fresh_tracker (PFloat float_67890_12) 0,
   [Http (GET COINDESK_PRICE_URL);
    Print (FetchedNewPrice (PFloat float_67890_12));
    Http (POST_data PIXLET_RENDER_URL (render_code 67890))]) /\
  push_to_tidbyt ascii_builtins tick_empty_render fresh_tracker =
  (Ok false,
   remember fresh_tracker (PFloat float_67890_12) 0,
   [Http (GET COINDESK_PRICE_URL);
    Print (FetchedNewPrice (PFloat float_67890_12));
    Http (POST_data PIXLET_RENDER_URL (render_code 67890))]).
Proof. split; reflexivity. Qed.

Lemma push_witness :
  let out1 :=
    [Http (GET COINDESK_PRICE_URL);
     Print (FetchedNewPrice (PFloat float_67890_12));
     Http (POST_data PIXLET_RENDER_URL (render_code 67890))] in
  let post :=
    Http (POST_json
            "https://api.tidbyt.com/v0/devices/device/push"
            [("Authorization", "Bearer secret");
             ("Content-Type", "application/json")]
            (PDict [("image", PStr "UklGRg==");
                    ("installation_id", PStr "bitcoin-tracker");
                    ("background", PBool true)])) in
  (exists rendered,
      tick_push_403.(render_api) = Ok rendered /\
      rendered.(status_code) = 200 /\
      rendered.(content) = list_byte_of_string "RIFF") /\
  exists r out2,
    push_to_tidbyt ascii_builtins tick_push_403 fresh_tracker =
    (r, remember fresh_tracker (PFloat float_67890_12) 0, out1 ++ post :: out2) /\
    forall pushed,
      tick_push_403.(push_api) = Ok pushed ->
      r = Ok (pushed.(status_code) =? 200) /\
      out2 = if pushed.(status_code) =? 200
             then [Print PushedToTidbyt]
             else [Print (FailedToPush pushed.(status_code));
                   Print (PushResponseText pushed.(text))].
Proof.
  intros out1 post.
  apply (push_sends_encoded_image ascii_builtins tick_push_403 fresh_tracker
           (remember fresh_tracker (PFloat float_67890_12) 0) out1
           Byte.x52 (list_byte_of_string "IFF")).
  reflexivity.
Defined.

Lemma failed_fetch_witness :
  let out1 := [Http (GET COINDESK_PRICE_URL); Print (FailedToFetchPrice 503)] in
  (exists m, In (Print m) out1 /\ fetch_failure_line m) /\
  create_webp ascii_builtins tick_price_503 fresh_tracker =
  (Ok None, fresh_tracker, out1) /\
  push_to_tidbyt ascii_builtins tick_price_503 fresh_tracker =
  (Ok false, fresh_tracker, out1) /\
  iteration ascii_builtins 300 tick_price_503 fresh_tracker =
  (Ok tt, fresh_tracker, out1 ++ [Print FailedToUpdate; Sleep 300]) /\
  (forall r,
      In (Http r) (events (iteration ascii_builtins 300 tick_price_503 fresh_tracker)) ->
      r = GET COINDESK_PRICE_URL).
Proof.
  intros out1.
  apply (failed_fetch_aborts_iteration ascii_builtins 300 tick_price_503
           fresh_tracker fresh_tracker out1);
    [discriminate | reflexivity].
Defined.

Lemma empty_render_witness :
  let s1 := remember fresh_tracker (PFloat float_67890_12) 0 in
  let out1 :=
    [Http (GET COINDESK_PRICE_URL);
     Print (FetchedNewPrice (PFloat float_67890_12))] in
  let post := Http (POST_data PIXLET_RENDER_URL (render_code 67890)) in
  create_webp ascii_builtins tick_empty_render fresh_tracker =
  (Ok (Some []), s1, out1 ++ [post]) /\
  push_to_tidbyt ascii_builtins tick_empty_render fresh_tracker =
  (Ok false, s1, out1 ++ [post]) /\
  iteration ascii_builtins 300 tick_empty_render fresh_tracker =
  (Ok tt, s1, out1 ++ [post; Print FailedToUpdate; Sleep 300]) /\
  forallb (fun ev => negb (is_push_request ev))
          (events (iteration ascii_builtins 300 tick_empty_render fresh_tracker)) = true.
Proof.
  intros s1 out1 post.
  apply (empty_render_is_failure ascii_builtins 300 tick_empty_render
           fresh_tracker s1 out1 (PFloat float_67890_12) 67890
           (plain_response 200 ""));
    try reflexivity.
  discriminate.
Defined.

Lemma bad_config_witness :
  main ascii_builtins config_without_api_key [tick_push_403] tt =
  (Ok Returned, tt, [Print ConfigMustContain]).
Proof.
  apply (bad_config_aborts_startup ascii_builtins config_without_api_key
           [tick_push_403]).
  right. split; [reflexivity |].
  exists [("device_id", PStr "device")]. split; [reflexivity |].
  right. reflexivity.
Defined.

Lemma invalid_json_witness :
  main ascii_builtins config_not_json [tick_push_403] tt =
  (Raise JSONDecodeError, tt, []).
Proof.
  apply (invalid_json_config_is_uncaught ascii_builtins config_not_json
           [tick_push_403]);
    reflexivity.
Defined.

(** C1 at an input where it fails as stated.  The price document carries an
    infinite rate; no interrupt arrives and the sleep would return.  The
    read caches and returns the infinity, [int(price)] raises
    [OverflowError] while the Starlark program is built, outside every
    [try] of the body, and the handler around the loop prints it and lets the
    function return: no retry line, no sleep, no next iteration. *)
Lemma infinite_price_ends_loop :
  no_interrupt tick_infinite_price = true /\
  sleep_returns tick_infinite_price = true /\
  run_continuous_updates ascii_builtins 300
    [tick_infinite_price; tick_push_403] fresh_tracker =
  (Ok Returned,
   remember fresh_tracker (PFloat (S754_infinity false)) 0,
   [Print (StartingUpdates 300);
    Http (GET COINDESK_PRICE_URL);
    Print (FetchedNewPrice (PFloat (S754_infinity false)));
    Print (UnexpectedError OverflowError)]).
Proof. repeat split. Qed.

Lemma loop_witness :
  let ws := [tick_push_403; tick_interrupted] in
  let run := run_continuous_updates ascii_builtins 300 ws fresh_tracker in
  let s1 := remember fresh_tracker (PFloat float_67890_12) 0 in
  let pushed :=
    [Http (GET COINDESK_PRICE_URL);
     Print (FetchedNewPrice (PFloat float_67890_12));
     Http (POST_data PIXLET_RENDER_URL (render_code 67890))] ++
    Http (POST_json (TIDBYT_API_URL (py_str ascii_builtins s1.(device_id)))
                    (push_headers ascii_builtins s1)
                    (push_data (b64encode (Byte.x52 :: list_byte_of_string "IFF"))))
      :: map Print [FailedToPush 403; PushResponseText "Forbidden"] in
  run = (Ok Returned, state_after run, events run) /\
  push_to_tidbyt ascii_builtins tick_push_403 fresh_tracker =
  (Ok false, s1, pushed) /\
  iteration ascii_builtins 300 tick_push_403 fresh_tracker =
  (Ok tt, s1, pushed ++ [Print FailedToUpdate; Sleep 300]) /\
  ((Ok Returned = Ok Looping /\ sleeps (events run) = List.length ws) \/
   (Ok Returned = Ok Returned /\
    exists before w after s o e,
      ws = before ++ w :: after /\
      while_True (iteration ascii_builtins 300) before fresh_tracker = (Ok tt, s, o) /\
      outcome (iteration ascii_builtins 300 w s) = Raise e /\
      ((is_Exception e = false /\ no_interrupt w = false /\
        exists out0, events run = out0 ++ [Print StoppingTracker]) \/
       (is_Exception e = true /\
        (escapes ascii_builtins w s e \/ sleep_refusal 300 = Some e) /\
        exists out0, events run = out0 ++ [Print (UnexpectedError e)])))).
Proof.
  intros ws run s1 pushed.
  assert (Hint : 0 <= 300) by discriminate.
  assert (Hrun : run = (Ok Returned, state_after run, events run))
    by reflexivity.
  destruct (loop_ends_on_interrupt_or_escape ascii_builtins 300 ws
              fresh_tracker _ _ _ Hint Hrun)
    as [[_ [_ Hlogged]] [Hretry [_ Hcases]]].
  assert (Hpush : push_to_tidbyt ascii_builtins tick_push_403 fresh_tracker =
                  (Ok false, s1, pushed)).
  { exact (Hlogged tick_push_403 fresh_tracker s1
             [Http (GET COINDESK_PRICE_URL);
              Print (FetchedNewPrice (PFloat float_67890_12));
              Http (POST_data PIXLET_RENDER_URL (render_code 67890))]
             Byte.x52 (list_byte_of_string "IFF")
             [FailedToPush 403; PushResponseText "Forbidden"]
             eq_refl eq_refl). }
  split; [exact Hrun |]. split; [exact Hpush |].
  split; [exact (Hretry _ _ _ _ Hpush) | exact Hcases].
Defined.

(** C8 at an input where it fails as stated: the price API sends -1.0, a
    number, and the cache holds it. *)
Lemma negative_price_is_cached :
  let w := good_tick 0 (PFloat float_minus_1) "RIFF" in
  cache_positive fresh_tracker = true /\
  last_price (state_after (get_bitcoin_price w fresh_tracker)) =
  PFloat float_minus_1 /\
  cache_positive (state_after (get_bitcoin_price w fresh_tracker)) = false.
Proof. repeat split. Qed.

Lemma positive_cache_witness :
  let ws := [tick_push_403; tick_interrupted] in
  cache_positive
    (state_after (run_continuous_updates ascii_builtins 300 ws fresh_tracker)) = true /\
  (forall w, In w ws ->
     cache_positive (state_after (get_bitcoin_price w fresh_tracker)) = true /\
     cache_positive (state_after (create_webp ascii_builtins w fresh_tracker)) = true /\
     cache_positive (state_after (push_to_tidbyt ascii_builtins w fresh_tracker)) = true).
Proof.
  intros ws.
  apply (positive_offers_keep_cache_positive ascii_builtins 300 ws fresh_tracker);
    reflexivity.
Defined.

(** ** Further properties of the methods *)

Section Further.

Variable py : builtins.

(** X1. When a price was read and converts, and the render request fails (a
    status other than 200, or an exception of class [Exception]),
    [create_webp] prints the failure and returns [None]; [push_to_tidbyt]
    returns [False] and sends no push request; the loop body prints its retry
    line and goes on to [time.sleep] (which refuses a length of [SLEEP_LIMIT]
    seconds or more with [OverflowError]). *)
Theorem render_failure_aborts_iteration (update_interval : Z) (w : tick)
        (self self1 : tracker) (out1 : list event) (price : pyval) (n : Z)
        (line : message) :
  0 <= update_interval ->
  get_bitcoin_price w self = (Ok price, self1, out1) ->
  is_None price = false ->
  py_int py price = Ok n ->
  render_failure w = Some line ->
  let post := Http (POST_data PIXLET_RENDER_URL (render_code n)) in
  create_webp py w self = (Ok None, self1, out1 ++ [post; Print line]) /\
  push_to_tidbyt py w self = (Ok false, self1, out1 ++ [post; Print line]) /\
  iteration py update_interval w self =
  (if update_interval <? SLEEP_LIMIT
   then (w.(sleep_api), self1,
         out1 ++ [post; Print line; Print FailedToUpdate; Sleep update_interval])
   else (Raise OverflowError, self1,
         out1 ++ [post; Print line; Print FailedToUpdate])).
Proof.
  intros Hint Hread Hsome Hconv Hfail post.
  assert (Hc : create_webp py w self = (Ok None, self1, out1 ++ [post; Print line])).
  { rewrite create_webp_table, Hread, Hsome, Hconv. cbv zeta.
    unfold render_failure in Hfail. fold post.
    destruct (render_api w) as [rendered | e].
    - destruct (status_code rendered =? 200); inversion Hfail; reflexivity.
    - destruct (is_Exception e); inversion Hfail; reflexivity. }
  assert (Hp : push_to_tidbyt py w self = (Ok false, self1, out1 ++ [post; Print line]))
    by (rewrite push_to_tidbyt_table, Hc; reflexivity).
  repeat split; try assumption.
  rewrite (iteration_after_push py _ _ _ _ _ _ Hint Hp). cbv zeta.
  rewrite <- !app_assoc. reflexivity.
Qed.

(** X2. When [create_webp] returned an image and the push request fails (a
    status other than 200, or an exception of class [Exception] such as a
    timeout), [push_to_tidbyt] prints the failure after the request and
    returns [False]; the loop body prints its retry line and goes on to
    [time.sleep] (which refuses a length of [SLEEP_LIMIT] seconds or more
    with [OverflowError]). *)
Theorem push_failure_is_swallowed (update_interval : Z) (w : tick)
        (self self1 : tracker) (out1 : list event) (b : Byte.byte) (bs : bytes)
        (lines : list message) :
  0 <= update_interval ->
  create_webp py w self = (Ok (Some (b :: bs)), self1, out1) ->
  push_failure w = Some lines ->
  let post :=
    Http (POST_json (TIDBYT_API_URL (py_str py self1.(device_id)))
                    (push_headers py self1)
                    (push_data (b64encode (b :: bs)))) in
  push_to_tidbyt py w self =
  (Ok false, self1, out1 ++ post :: map Print lines) /\
  iteration py update_interval w self =
  (if update_interval <? SLEEP_LIMIT
   then (w.(sleep_api), self1,
         out1 ++ post :: map Print lines
              ++ [Print FailedToUpdate; Sleep update_interval])
   else (Raise OverflowError, self1,
         out1 ++ post :: map Print lines ++ [Print FailedToUpdate])).
Proof.
  intros Hint Hc Hfail post.
  assert (Hp : push_to_tidbyt py w self =
               (Ok false, self1, out1 ++ post :: map Print lines)).
  { rewrite push_to_tidbyt_table, Hc. cbv zeta. fold post.
    unfold push_failure in Hfail.
    destruct (push_api w) as [pushed | e].
    - destruct (status_code pushed =? 200); inversion Hfail; reflexivity.
    - destruct (is_Exception e); inversion Hfail; reflexivity. }
  split; [exact Hp |].
  rewrite (iteration_after_push py _ _ _ _ _ _ Hint Hp). cbv zeta.
  rewrite <- !app_assoc. reflexivity.
Qed.

(** X3. A price that a fetch returned is served from the cache afterwards:
    when a read that missed the cache returns a price at one tick, a read at
    any tick whose clock is less than four minutes past the first returns the
    same price, prints the cache line, sends no request and leaves the object
    as it was. *)
Theorem fetched_price_is_served_from_cache (w1 w2 : tick)
        (self self1 : tracker) (out1 : list event) (price : pyval) :
  self.(cache_ttl) = timedelta_minutes 4 ->
  cache_valid self w1.(now) = false ->
  get_bitcoin_price w1 self = (Ok price, self1, out1) ->
  is_None price = false ->
  w2.(now) - w1.(now) < timedelta_minutes 4 ->
  get_bitcoin_price w2 self1 = (Ok price, self1, [Print UsingCachedPrice]).
Proof.
  intros Httl Hmiss Hread Hsome Hage.
  rewrite get_bitcoin_price_fetch in Hread by assumption. cbv zeta in Hread.
  assert (Hs : self1 = remember self price w1.(now)).
  { destruct (price_api w1) as [resp | e0].
    - destruct (status_code resp =? 200).
      + destruct (rate_float resp) as [p | e1].
        * destruct (format_2f p) as [shown | ef].
          -- inversion Hread; subst. reflexivity.
          -- destruct (is_Exception ef); inversion Hread; subst; discriminate.
        * destruct (is_Exception e1); inversion Hread; subst; discriminate.
      + inversion Hread; subst. discriminate.
    - destruct (is_Exception e0); inversion Hread; subst; discriminate. }
  subst self1.
  rewrite get_bitcoin_price_hit; [reflexivity |].
  unfold cache_valid, remember. simpl. rewrite Hsome, Httl. simpl.
  apply Z.ltb_lt. exact Hage.
Qed.

(** X4. An expired sample is never served.  When the cache does not answer
    and the tick offers no price (the request raises, the status is not 200,
    or the document lacks the path), the read sends its one GET and then
    either returns [None] after printing a failure line, or is left by an
    interrupt; the object is unchanged, and [push_to_tidbyt] sends no other
    request and does not return [True], whatever price the object still
    holds. *)
Theorem expired_sample_is_never_served (w : tick) (self : tracker) :
  cache_valid self w.(now) = false ->
  price_offered w = None ->
  ((exists m,
       fetch_failure_line m /\
       get_bitcoin_price w self =
       (Ok PNone, self, [Http (GET COINDESK_PRICE_URL); Print m])) \/
   (exists e,
       is_Exception e = false /\
       get_bitcoin_price w self = (Raise e, self, [Http (GET COINDESK_PRICE_URL)]))) /\
  outcome (push_to_tidbyt py w self) <> Ok true /\
  (forall r, In (Http r) (events (push_to_tidbyt py w self)) ->
             r = GET COINDESK_PRICE_URL).
Proof.
  intros Hmiss Hnone.
  assert (Hread :
    (exists m,
        fetch_failure_line m /\
        get_bitcoin_price w self =
        (Ok PNone, self, [Http (GET COINDESK_PRICE_URL); Print m])) \/
    (exists e,
        is_Exception e = false /\
        get_bitcoin_price w self = (Raise e, self, [Http (GET COINDESK_PRICE_URL)]))).
  { rewrite get_bitcoin_price_fetch by assumption. cbv zeta.
    unfold price_offered in Hnone. unfold fetch_failure_line.
    destruct (price_api w) as [resp | e0].
    - destruct (status_code resp =? 200).
      + destruct (rate_float resp) as [p | e1]; [discriminate |].
        destruct (is_Exception e1) eqn:He; [left | right]; eauto.
      + left. eauto.
    - destruct (is_Exception e0) eqn:He; [left | right]; eauto. }
  split; [exact Hread |].
  rewrite push_to_tidbyt_table, create_webp_table.
  destruct Hread as [[m [_ H]] | [e [_ H]]]; rewrite H; simpl; split;
    try discriminate; intros r [Hr | Hr]; try (inversion Hr; reflexivity);
    destruct Hr as [Hr | []]; discriminate.
Qed.

(** The requests of [create_webp]: the GET of the read, then at most the
    POST of a Starlark program. *)
Lemma create_webp_requests (w : tick) (self : tracker) (r : request) :
  In (Http r) (events (create_webp py w self)) ->
  r = GET COINDESK_PRICE_URL \/
  exists n, r = POST_data PIXLET_RENDER_URL (render_code n).
Proof.
  rewrite create_webp_table.
  pose proof (get_bitcoin_price_requests w self r) as Hget.
  destruct (get_bitcoin_price w self) as [[[price | e] s] o];
    unfold events in *; simpl in *; [| auto].
  destruct (is_None price); simpl; [auto |].
  destruct (py_int py price) as [n | e]; simpl; [| auto].
  cbv zeta.
  assert (Hpost : forall tail,
             (forall x, In (Http x) tail -> False) ->
             In (Http r)
                (o ++ Http (POST_data PIXLET_RENDER_URL (render_code n)) :: tail) ->
             r = GET COINDESK_PRICE_URL \/
             exists n0, r = POST_data PIXLET_RENDER_URL (render_code n0)).
  { intros tail Htail Hin. apply in_app_iff in Hin.
    destruct Hin as [Hin | [Hin | Hin]].
    - left. auto.
    - right. exists n. inversion Hin. reflexivity.
    - exfalso. exact (Htail _ Hin). }
  destruct (render_api w) as [rendered | e].
  - destruct (status_code rendered =? 200); apply Hpost; simpl;
      intros x Hx; repeat (destruct Hx as [Hx | Hx]; try discriminate); exact Hx.
  - destruct (is_Exception e); apply Hpost; simpl;
      intros x Hx; repeat (destruct Hx as [Hx | Hx]; try discriminate); exact Hx.
Qed.

(** X5. A push request carries the image of this very iteration: whenever
    [push_to_tidbyt] sends one, the rendering endpoint has answered 200 in
    the same tick with a body that is not empty, and the [image] of the
    request is the base64 text of exactly that body. *)
Theorem pushed_image_is_the_render_of_the_tick (w : tick) (self : tracker)
        (url : string) (headers : list (string * string)) (body : pyval) :
  In (Http (POST_json url headers body)) (events (push_to_tidbyt py w self)) ->
  exists rendered b bs,
    w.(render_api) = Ok rendered /\
    rendered.(status_code) = 200 /\
    rendered.(content) = b :: bs /\
    body = PDict [("image", PStr (b64encode (b :: bs)));
                  ("installation_id", PStr "bitcoin-tracker");
                  ("background", PBool true)].
Proof.
  rewrite push_to_tidbyt_table.
  pose proof (create_webp_requests w self (POST_json url headers body)) as Hc.
  assert (Hno : In (Http (POST_json url headers body))
                   (events (create_webp py w self)) -> False).
  { intros Hin. destruct (Hc Hin) as [H | [n H]]; discriminate. }
  assert (Hsome : forall b bs s o,
             create_webp py w self = (Ok (Some (b :: bs)), s, o) ->
             exists rendered,
               w.(render_api) = Ok rendered /\
               rendered.(status_code) = 200 /\
               rendered.(content) = b :: bs).
  { intros b bs s o H. rewrite create_webp_table in H.
    destruct (get_bitcoin_price w self) as [[[price | e0] s0] o0];
      [| discriminate].
    destruct (is_None price); [discriminate |].
    destruct (py_int py price) as [n | e0]; [| discriminate].
    cbv zeta in H.
    destruct (render_api w) as [rendered | e0].
    - exists rendered. split; [reflexivity |].
      destruct (status_code rendered =? 200) eqn:Hs; [| discriminate].
      apply Z.eqb_eq in Hs. inversion H. auto.
    - destruct (is_Exception e0); discriminate. }
  destruct (create_webp py w self) as [[[webp | e] s] o] eqn:Hcw;
    unfold events in *; cbn [snd] in *; [| intros Hin; destruct (Hno Hin)].
  destruct webp as [[| b bs] |];
    try (intros Hin; destruct (Hno Hin)).
  cbv zeta. intros Hin.
  destruct (Hsome b bs s o eq_refl) as [rendered [Hr [Hs Hb]]].
  exists rendered, b, bs. repeat split; try assumption.
  change (body = push_data (b64encode (b :: bs))).
  remember (push_data (b64encode (b :: bs))) as data eqn:Hdata.
  assert (Hpost : forall tail,
             (forall x, In (Http x) tail -> False) ->
             In (Http (POST_json url headers body))
                (o ++ Http (POST_json (TIDBYT_API_URL (py_str py s.(device_id)))
                                      (push_headers py s) data) :: tail) ->
             body = data).
  { intros tail Htail H. apply in_app_iff in H.
    destruct H as [H | [H | H]].
    - destruct (Hno H).
    - inversion H. reflexivity.
    - destruct (Htail _ H). }
  assert (Hprints : forall ms x, In (Http x) (map Print ms) -> False).
  { intros ms x Hx. apply in_map_iff in Hx. destruct Hx as [m [Hm _]].
    discriminate. }
  destruct (push_api w) as [pushed | e].
  - destruct (status_code pushed =? 200); cbn [snd] in Hin.
    + exact (Hpost _ (Hprints [PushedToTidbyt]) Hin).
    + exact (Hpost _ (Hprints [FailedToPush (status_code pushed);
                               PushResponseText (text pushed)]) Hin).
  - destruct (is_Exception e); cbn [snd] in Hin.
    + exact (Hpost _ (Hprints [ErrorPushing e]) Hin).
    + exact (Hpost _ (Hprints []) Hin).
Qed.

(** The credentials of the object stay through an iteration. *)
Lemma iteration_keeps_credentials (update_interval : Z) (w : tick)
      (self : tracker) :
  (state_after (iteration py update_interval w self)).(device_id) = self.(device_id) /\
  (state_after (iteration py update_interval w self)).(api_key) = self.(api_key).
Proof.
  rewrite iteration_state. apply get_bitcoin_price_keeps_credentials.
Qed.

Lemma prints_are_no_requests (ms : list message) (x : request) :
  In (Http x) (map Print ms) -> False.
Proof.
  intros Hx. apply in_map_iff in Hx. destruct Hx as [m [Hm _]]. discriminate.
Qed.

Lemma push_to_tidbyt_allowed (w : tick) (self : tracker) (r : request) :
  In (Http r) (events (push_to_tidbyt py w self)) ->
  allowed_request py self.(device_id) self.(api_key) r.
Proof.
  rewrite push_to_tidbyt_table.
  pose proof (create_webp_requests w self r) as Hc.
  pose proof (create_webp_state py w self) as Hst.
  destruct (get_bitcoin_price_keeps_credentials w self) as [Hdev Hkey].
  rewrite <- Hst in Hdev, Hkey.
  assert (Hold : In (Http r) (events (create_webp py w self)) ->
                 allowed_request py self.(device_id) self.(api_key) r).
  { intros Hin. destruct (Hc Hin) as [H | H]; [left | right; left]; exact H. }
  destruct (create_webp py w self) as [[[webp | e] s] o];
    unfold events, state_after in *; cbn [snd fst] in *; [| exact Hold].
  destruct webp as [[| b bs] |]; try exact Hold.
  cbv zeta. unfold push_headers, push_data. rewrite Hdev, Hkey.
  assert (Hpost : forall ms,
             In (Http r)
                (o ++ Http (POST_json
                              (TIDBYT_API_URL (py_str py self.(device_id)))
                              [("Authorization",
                                ("Bearer " ++ py_str py self.(api_key))%string);
                               ("Content-Type", "application/json")]
                              (PDict [("image", PStr (b64encode (b :: bs)));
                                      ("installation_id", PStr "bitcoin-tracker");
                                      ("background", PBool true)]))
                   :: map Print ms) ->
             allowed_request py self.(device_id) self.(api_key) r).
  { intros ms H. apply in_app_iff in H. destruct H as [H | [H | H]].
    - exact (Hold H).
    - right. right. exists b, bs. inversion H. reflexivity.
    - destruct (prints_are_no_requests _ _ H). }
  destruct (push_api w) as [pushed | e].
  - destruct (status_code pushed =? 200); cbn [snd].
    + exact (Hpost [PushedToTidbyt]).
    + exact (Hpost [FailedToPush (status_code pushed);
                    PushResponseText (text pushed)]).
  - destruct (is_Exception e); cbn [snd].
    + exact (Hpost [ErrorPushing e]).
    + exact (Hpost []).
Qed.

Lemma iteration_allowed (update_interval : Z) (w : tick) (self : tracker)
      (r : request) :
  In (Http r) (events (iteration py update_interval w self)) ->
  allowed_request py self.(device_id) self.(api_key) r.
Proof.
  rewrite iteration_table.
  pose proof (push_to_tidbyt_allowed w self r) as Hp.
  destruct (push_to_tidbyt py w self) as [[[success | e] s] o];
    unfold events in *; cbn [snd] in *; [| exact Hp].
  cbv zeta.
  assert (Hrest : forall tail,
             (forall x, In (Http x) tail -> False) ->
             In (Http r) (o ++ tail) ->
             allowed_request py self.(device_id) self.(api_key) r).
  { intros tail Htail H. apply in_app_iff in H. destruct H as [H | H].
    - exact (Hp H).
    - destruct (Htail _ H). }
  destruct (sleep_refusal update_interval); cbn [snd]; rewrite <- ?app_assoc;
    apply Hrest; destruct success; simpl; intros x Hx;
    repeat (destruct Hx as [Hx | Hx]; try discriminate); exact Hx.
Qed.

Lemma while_True_allowed (update_interval : Z) (ws : list tick) (r : request) :
  forall self,
    In (Http r) (events (while_True (iteration py update_interval) ws self)) ->
    allowed_request py self.(device_id) self.(api_key) r.
Proof.
  induction ws as [| w ws IH]; intros self Hin.
  - destruct Hin.
  - simpl in Hin. unfold bind in Hin.
    pose proof (iteration_allowed update_interval w self r) as Hit.
    destruct (iteration_keeps_credentials update_interval w self) as [Hdev Hkey].
    destruct (iteration py update_interval w self) as [[[[] | e] s] o];
      unfold events, state_after in *; cbn [snd fst] in *; [| exact (Hit Hin)].
    specialize (IH s).
    destruct (while_True (iteration py update_interval) ws s) as [[r2 s2] o2].
    cbn [snd] in *. apply in_app_iff in Hin. destruct Hin as [Hin | Hin].
    + exact (Hit Hin).
    + rewrite <- Hdev, <- Hkey. exact (IH Hin).
Qed.

Lemma run_continuous_updates_allowed (update_interval : Z) (ws : list tick)
      (self : tracker) (r : request) :
  In (Http r) (events (run_continuous_updates py update_interval ws self)) ->
  allowed_request py self.(device_id) self.(api_key) r.
Proof.
  rewrite run_continuous_updates_table. cbv zeta.
  pose proof (while_True_allowed update_interval ws r self) as Hloop.
  destruct (while_True (iteration py update_interval) ws self)
    as [[[[] | e] s] o]; unfold events in *; cbn [snd] in *.
  - intros [H | H]; [discriminate | exact (Hloop H)].
  - intros [H | H]; [discriminate |].
    apply in_app_iff in H. destruct H as [H | [H | []]];
      [exact (Hloop H) | discriminate].
Qed.

(** X6. With a config file that holds both fields, every request [main]
    ever sends is one of three: the GET to the price API, the POST of a
    Starlark program to the rendering endpoint, or the POST to the push URL
    of the configured device, with the bearer header of the configured key
    and a body whose image is the base64 text of bytes that are not empty.
    The key goes nowhere else, and no other URL is contacted. *)
Theorem main_sends_only_its_three_requests (fs : startup) (ws : list tick)
        (config d k : pyval) (r : request) :
  fs.(open_config) = Ok tt ->
  fs.(load_config) = Ok config ->
  getitem config "device_id" = Ok d ->
  getitem config "api_key" = Ok k ->
  In (Http r) (events (main py fs ws tt)) ->
  allowed_request py d k r.
Proof.
  intros Hopen Hload Hd Hk.
  unfold main, load_configuration, call. run_py.
  rewrite Hopen, Hload. simpl. rewrite Hd. simpl. rewrite Hk. simpl.
  pose proof (run_continuous_updates_allowed 300 ws (TidbytBitcoinTracker d k) r)
    as Hrun.
  destruct (run_continuous_updates py 300 ws (TidbytBitcoinTracker d k))
    as [[r1 s1] o1].
  unfold events in *. simpl in *. exact Hrun.
Qed.

(** X7. Startup errors other than the two handled ones leave [main]
    uncaught and nothing is printed: an exception of [open] that is not
    [FileNotFoundError] (a permission error), an exception of [json.load],
    and the [TypeError] of subscripting a config document that is not an
    object (an array, a string, a number, [null]). *)
Theorem other_startup_errors_are_uncaught (fs : startup) (ws : list tick)
        (e : exn) :
  is_FileNotFoundError e = false ->
  is_KeyError e = false ->
  fs.(open_config) = Raise e \/
  (fs.(open_config) = Ok tt /\ fs.(load_config) = Raise e) \/
  (fs.(open_config) = Ok tt /\
   exists config,
     fs.(load_config) = Ok config /\ is_dict config = false /\ e = TypeError) ->
  main py fs ws tt = (Raise e, tt, []).
Proof.
  intros Hfile Hkey Hcase. unfold main, load_configuration. run_py.
  destruct Hcase as [Hopen | [[Hopen Hload] | [Hopen [config [Hload [Hd He]]]]]].
  - rewrite Hopen. simpl. rewrite Hfile, Hkey. reflexivity.
  - rewrite Hopen, Hload. simpl. rewrite Hfile, Hkey. reflexivity.
  - subst e. rewrite Hopen, Hload. simpl.
    destruct config; try discriminate; reflexivity.
Qed.

(** The loop body with a negative sleep length is always left by an
    exception, before any sleep. *)
Lemma negative_interval_iteration (update_interval : Z) (w : tick)
      (self : tracker) :
  update_interval < 0 ->
  exists e s o,
    iteration py update_interval w self = (Raise e, s, o) /\
    sleeps o = 0%nat /\
    (forall success s1 o1,
        push_to_tidbyt py w self = (Ok success, s1, o1) ->
        e = if update_interval <=? - SLEEP_LIMIT then OverflowError
            else ValueError).
Proof.
  intros Hneg. rewrite iteration_table.
  pose proof (push_to_tidbyt_sleeps py w self) as H0.
  destruct (push_to_tidbyt py w self) as [[[success | e] s] o];
    unfold events in H0; cbn [snd] in H0.
  - cbv zeta. rewrite (sleep_refusal_negative _ Hneg).
    eexists. eexists. eexists. split; [reflexivity |]. split.
    + rewrite sleeps_app, H0. destruct success; reflexivity.
    + reflexivity.
  - exists e, s, o. split; [reflexivity |]. split; [exact H0 |].
    intros success s1 o1 H. discriminate.
Qed.

(** X8. With a negative [update_interval] the function does not loop: the
    first iteration makes its update, [time.sleep] then refuses the length
    before any waiting, with [OverflowError] when the length is at most
    [- SLEEP_LIMIT] and with [ValueError] for every other negative length,
    the handler around the loop prints that exception and the function
    returns.  No sleep happens and the ticks after the first are never
    reached. *)
Theorem negative_interval_stops_after_one_update (update_interval : Z)
        (w : tick) (ws : list tick) (self : tracker) :
  update_interval < 0 ->
  run_continuous_updates py update_interval (w :: ws) self =
  run_continuous_updates py update_interval [w] self /\
  outcome (run_continuous_updates py update_interval (w :: ws) self) = Ok Returned /\
  sleeps (events (run_continuous_updates py update_interval (w :: ws) self)) = 0%nat /\
  (forall success s1 o1,
      push_to_tidbyt py w self = (Ok success, s1, o1) ->
      exists out0,
        events (run_continuous_updates py update_interval (w :: ws) self) =
        out0 ++ [Print (UnexpectedError
                          (if update_interval <=? - SLEEP_LIMIT
                           then OverflowError else ValueError))]).
Proof.
  intros Hneg.
  destruct (negative_interval_iteration update_interval w self Hneg)
    as [e [s [o [Hit [Hs He]]]]].
  assert (Hloop : forall rest,
             while_True (iteration py update_interval) (w :: rest) self =
             (Raise e, s, o)).
  { intros rest. simpl. unfold bind. rewrite Hit. reflexivity. }
  rewrite !run_continuous_updates_table, !Hloop. cbv zeta.
  split; [reflexivity |]. split; [reflexivity |]. split.
  - unfold events. cbn [snd].
    change (Print (StartingUpdates update_interval)
              :: o ++ [Print (if is_KeyboardInterrupt e then StoppingTracker
                              else UnexpectedError e)])
      with ([Print (StartingUpdates update_interval)]
              ++ o ++ [Print (if is_KeyboardInterrupt e then StoppingTracker
                              else UnexpectedError e)]).
    rewrite !sleeps_app, Hs. reflexivity.
  - intros success s1 o1 Hpush. rewrite (He _ _ _ Hpush).
    exists (Print (StartingUpdates update_interval) :: o).
    destruct (update_interval <=? - SLEEP_LIMIT); reflexivity.
Qed.

Lemma while_True_app {S} (body : tick -> Py S unit) (before after : list tick) :
  forall s,
    while_True body (before ++ after) s =
    bind (while_True body before) (fun _ => while_True body after) s.
Proof.
  induction before as [| w before IH]; intros s.
  - simpl. unfold bind, ret.
    destruct (while_True body after s) as [[r s1] o]. reflexivity.
  - simpl. unfold bind in *.
    destruct (body w s) as [[[[] | e] s1] o1]; [| reflexivity].
    rewrite IH.
    destruct (while_True body before s1) as [[[[] | e] s2] o2];
      [| reflexivity].
    destruct (while_True body after s2) as [[r s3] o3].
    rewrite app_assoc. reflexivity.
Qed.

(** X9. The first exception that leaves an iteration ends the run at once:
    after the iterations before it completed, the function prints one
    closing line (the stopping line for an interrupt, the unexpected-error
    line otherwise) and returns; the object and the events are those of the
    run up to the exception, whatever the later ticks would have answered. *)
Theorem exception_ends_the_run_at_once (update_interval : Z)
        (before after : list tick) (w : tick) (self s s' : tracker)
        (o o' : list event) (e : exn) :
  while_True (iteration py update_interval) before self = (Ok tt, s, o) ->
  iteration py update_interval w s = (Raise e, s', o') ->
  run_continuous_updates py update_interval (before ++ w :: after) self =
  (Ok Returned, s',
   Print (StartingUpdates update_interval)
     :: o ++ o' ++ [Print (closing_line e)]).
Proof.
  intros Hbefore Hit.
  rewrite run_continuous_updates_table, while_True_app. cbv zeta.
  unfold bind. rewrite Hbefore. simpl. unfold bind. rewrite Hit.
  unfold closing_line. rewrite <- app_assoc. reflexivity.
Qed.

(** X10. An interrupt is not taken for a failed request.  When Ctrl-C
    arrives during the price request, the render request or the push request,
    the [except Exception] of that method does not catch it: nothing is
    printed after the request, the method does not return its failure value,
    and the interrupt leaves the loop body with no retry line and no
    sleep. *)
Theorem interrupt_passes_the_handlers (update_interval : Z) (w : tick)
        (self : tracker) :
  (cache_valid self w.(now) = false /\
   w.(price_api) = Raise KeyboardInterrupt) \/
  (exists price s1 o1 n,
      get_bitcoin_price w self = (Ok price, s1, o1) /\
      is_None price = false /\
      py_int py price = Ok n /\
      w.(render_api) = Raise KeyboardInterrupt) \/
  (exists b bs s1 o1,
      create_webp py w self = (Ok (Some (b :: bs)), s1, o1) /\
      w.(push_api) = Raise KeyboardInterrupt) ->
  exists s out0 r,
    push_to_tidbyt py w self = (Raise KeyboardInterrupt, s, out0 ++ [Http r]) /\
    iteration py update_interval w self =
    (Raise KeyboardInterrupt, s, out0 ++ [Http r]).
Proof.
  intros Hcase.
  assert (Hpush : exists s out0 r,
             push_to_tidbyt py w self =
             (Raise KeyboardInterrupt, s, out0 ++ [Http r])).
  { destruct Hcase as [[Hmiss Hget]
                      | [[price [s1 [o1 [n [Hread [Hsome [Hconv Hrender]]]]]]]
                        | [b [bs [s1 [o1 [Hc Hp]]]]]]].
    - exists self, [], (GET COINDESK_PRICE_URL).
      rewrite push_to_tidbyt_table, create_webp_table.
      rewrite get_bitcoin_price_fetch by assumption. rewrite Hget.
      reflexivity.
    - exists s1, o1, (POST_data PIXLET_RENDER_URL (render_code n)).
      rewrite push_to_tidbyt_table, create_webp_table.
      rewrite Hread, Hsome, Hconv, Hrender. reflexivity.
    - eexists. eexists. eexists.
      rewrite push_to_tidbyt_table, Hc, Hp. reflexivity. }
  destruct Hpush as [s [out0 [r Hpush]]].
  exists s, out0, r. split; [exact Hpush |].
  rewrite iteration_table, Hpush. reflexivity.
Qed.

(** X11. One complete successful iteration.  When the cache does not answer,
    the price API answers 200 with a price that formats and converts to [n],
    the rendering endpoint answers 200 with bytes that are not empty and the
    device API answers 200, the loop body caches the price with the clock
    reading of the tick and causes exactly these events, in this order: the
    GET, the fetched line, the POST of the Starlark program for [n], the POST
    of the image to the device, the pushed line, and the sleep.  No retry
    line is printed.  A length from [SLEEP_LIMIT] on is refused by
    [time.sleep] with [OverflowError] in place of the sleep, after the same
    update. *)
Theorem successful_iteration (update_interval : Z) (w : tick) (self : tracker)
        (fetched rendered pushed : response) (price : pyval) (n : Z)
        (b : Byte.byte) (bs : bytes) :
  0 <= update_interval ->
  cache_valid self w.(now) = false ->
  w.(price_api) = Ok fetched ->
  fetched.(status_code) = 200 ->
  rate_float fetched = Ok price ->
  format_2f price = Ok price ->
  py_int py price = Ok n ->
  w.(render_api) = Ok rendered ->
  rendered.(status_code) = 200 ->
  rendered.(content) = b :: bs ->
  w.(push_api) = Ok pushed ->
  pushed.(status_code) = 200 ->
  iteration py update_interval w self =
  let update :=
    [Http (GET COINDESK_PRICE_URL);
     Print (FetchedNewPrice price);
     Http (POST_data PIXLET_RENDER_URL (render_code n));
     Http (POST_json
             (TIDBYT_API_URL (py_str py self.(device_id)))
             [("Authorization", ("Bearer " ++ py_str py self.(api_key))%string);
              ("Content-Type", "application/json")]
             (PDict [("image", PStr (b64encode (b :: bs)));
                     ("installation_id", PStr "bitcoin-tracker");
                     ("background", PBool true)]));
     Print PushedToTidbyt] in
  if update_interval <? SLEEP_LIMIT
  then (w.(sleep_api), remember self price w.(now),
        update ++ [Sleep update_interval])
  else (Raise OverflowError, remember self price w.(now), update).
Proof.
  intros Hint Hmiss Hget Hs1 Hrate Hfmt Hconv Hrender Hs2 Hbody Hpush Hs3.
  assert (Hsome : is_None price = false)
    by (destruct price; try reflexivity; discriminate).
  rewrite iteration_table, push_to_tidbyt_table, create_webp_table.
  rewrite get_bitcoin_price_fetch by assumption.
  rewrite Hget, Hs1. cbv zeta. simpl (200 =? 200).
  cbv iota. rewrite Hrate, Hfmt, Hsome, Hconv, Hrender, Hs2.
  simpl (200 =? 200). cbv iota. rewrite Hbody, Hpush, Hs3.
  simpl (200 =? 200). cbv iota.
  rewrite (sleep_refusal_nonneg _ Hint).
  destruct (update_interval <? SLEEP_LIMIT); reflexivity.
Qed.

(** ** Counting requests, and the cache under the sleep of the loop *)

Lemma count_app (p : event -> bool) (a b : list event) :
  count p (a ++ b) = (count p a + count p b)%nat.
Proof. unfold count. rewrite filter_app, length_app. reflexivity. Qed.

Lemma count_none (p : event -> bool) (l : list event) :
  Forall (fun ev => p ev = false) l -> count p l = 0%nat.
Proof.
  unfold count. induction 1 as [| ev l Hev _ IH]; simpl; [reflexivity |].
  rewrite Hev. exact IH.
Qed.

(** A read that hits the cache sends nothing; one that misses sends one GET
    and does not print the cache line. *)
Lemma get_bitcoin_price_counts (w : tick) (self : tracker) :
  count is_render_request (events (get_bitcoin_price w self)) = 0%nat /\
  count is_push_request (events (get_bitcoin_price w self)) = 0%nat /\
  (count is_get (events (get_bitcoin_price w self)) <= 1)%nat /\
  (cache_valid self w.(now) = false ->
   count is_get (events (get_bitcoin_price w self)) = 1%nat /\
   ~ In (Print UsingCachedPrice) (events (get_bitcoin_price w self))).
Proof.
  destruct (cache_valid self w.(now)) eqn:Hv.
  - rewrite get_bitcoin_price_hit by assumption.
    split; [reflexivity |]. split; [reflexivity |].
    split; [apply le_S, le_n | discriminate].
  - rewrite get_bitcoin_price_fetch by assumption. cbv zeta.
    repeat split_goal_match; unfold events, count; cbn;
      (split; [reflexivity |]); (split; [reflexivity |]);
      (split; [apply le_n |]); intros _; (split; [reflexivity |]);
      intros H; repeat (destruct H as [H | H]; try discriminate); exact H.
Qed.

(** What the loop body adds to the events of the read: no GET, no cache
    line, at most one render request and one push request. *)
Lemma iteration_events (update_interval : Z) (w : tick) (self : tracker) :
  exists tail,
    events (iteration py update_interval w self) =
    events (get_bitcoin_price w self) ++ tail /\
    Forall (fun ev => is_get ev = false) tail /\
    ~ In (Print UsingCachedPrice) tail /\
    (count is_render_request tail <= 1)%nat /\
    (count is_push_request tail <= 1)%nat.
Proof.
  rewrite iteration_table, push_to_tidbyt_table, create_webp_table.
  destruct (get_bitcoin_price w self) as [[[price | e] s] o];
    unfold events; cbn [snd].
  2: { exists []. rewrite app_nil_r.
       repeat split; try (intros []); auto using le_0_n. }
  repeat match goal with
         | |- context [match ?x with _ => _ end] =>
             lazymatch x with
             | context [match _ with _ => _ end] => fail
             | _ => destruct x
             end
         end;
    cbv zeta; cbn [snd]; rewrite <- ?app_assoc;
    (eexists; split; [first [reflexivity | symmetry; apply app_nil_r] |]);
    (split; [repeat constructor |]);
    (split; [cbn [app In]; intros H;
             repeat (destruct H as [H | H]; try discriminate); exact H |]);
    unfold count; cbn [app filter is_render_request is_push_request List.length];
    split; repeat constructor.
Qed.

Lemma iteration_counts (update_interval : Z) (w : tick) (self : tracker) :
  (count is_get (events (iteration py update_interval w self)) <= 1)%nat /\
  (count is_render_request (events (iteration py update_interval w self)) <= 1)%nat /\
  (count is_push_request (events (iteration py update_interval w self)) <= 1)%nat /\
  (cache_valid self w.(now) = false ->
   count is_get (events (iteration py update_interval w self)) = 1%nat /\
   ~ In (Print UsingCachedPrice) (events (iteration py update_interval w self))).
Proof.
  destruct (iteration_events update_interval w self)
    as [tail [Hev [Hget [Hline [Hrender Hpush]]]]].
  destruct (get_bitcoin_price_counts w self) as [Hr0 [Hp0 [Hg1 Hmiss]]].
  rewrite Hev, !count_app, Hr0, Hp0, (count_none _ _ Hget).
  repeat split; try lia.
  - destruct (Hmiss H) as [Hone _]. lia.
  - destruct (Hmiss H) as [_ Hno]. intros Hin.
    apply in_app_iff in Hin. destruct Hin as [Hin | Hin]; auto.
Qed.

(** X12. The program sends at most one request of each kind per tick: in
    any run, the number of GETs to the price API, of render requests and of
    push requests is each at most the number of ticks. *)
Theorem at_most_one_request_of_each_kind_per_tick (update_interval : Z)
        (ws : list tick) (self : tracker) :
  let out := events (run_continuous_updates py update_interval ws self) in
  (count is_get out <= List.length ws)%nat /\
  (count is_render_request out <= List.length ws)%nat /\
  (count is_push_request out <= List.length ws)%nat.
Proof.
  assert (Hloop : forall p,
             (forall w s, (count p (events (iteration py update_interval w s)) <= 1)%nat) ->
             forall l s,
               (count p (events (while_True (iteration py update_interval) l s))
                <= List.length l)%nat).
  { intros p Hp l. induction l as [| w l IH]; intros s.
    - apply le_n.
    - simpl. unfold bind. specialize (Hp w s).
      destruct (iteration py update_interval w s) as [[[[] | e] s1] o1];
        unfold events in *; cbn [snd] in *; [| lia].
      specialize (IH s1).
      destruct (while_True (iteration py update_interval) l s1) as [[r2 s2] o2].
      cbn [snd] in *. rewrite count_app. lia. }
  assert (Hrun : forall p,
             (forall m, p (Print m) = false) ->
             (forall w s, (count p (events (iteration py update_interval w s)) <= 1)%nat) ->
             (count p (events (run_continuous_updates py update_interval ws self))
              <= List.length ws)%nat).
  { intros p Hprint Hp. specialize (Hloop p Hp ws self).
    rewrite run_continuous_updates_table. cbv zeta.
    destruct (while_True (iteration py update_interval) ws self)
      as [[[[] | e] s] o]; unfold events in *; cbn [snd] in *.
    - unfold count in *. simpl. rewrite Hprint. exact Hloop.
    - change (Print (StartingUpdates update_interval)
                :: o ++ [Print (if is_KeyboardInterrupt e then StoppingTracker
                                else UnexpectedError e)])
        with ([Print (StartingUpdates update_interval)]
                ++ o ++ [Print (if is_KeyboardInterrupt e then StoppingTracker
                                else UnexpectedError e)]).
      rewrite !count_app. unfold count at 1 3. simpl. rewrite !Hprint.
      simpl. lia. }
  intros out. subst out. repeat split; apply Hrun; try reflexivity;
    intros w s; apply iteration_counts.
Qed.

Lemma expired_misses (self : tracker) (t : datetime) :
  expired self t = true -> cache_valid self t = false.
Proof.
  unfold expired, cache_valid. destruct (last_update self) as [u |].
  - intros H. apply Z.leb_le in H.
    replace (t - u <? cache_ttl self) with false
      by (symmetry; apply Z.ltb_ge; exact H).
    apply andb_false_r.
  - intros _. apply andb_false_r.
Qed.

(** After an iteration at an expired cache, the cache is expired again once
    the time to live has passed. *)
Lemma iteration_keeps_expired (update_interval : Z) (w : tick)
      (self : tracker) (t' : datetime) :
  0 <= self.(cache_ttl) ->
  expired self w.(now) = true ->
  self.(cache_ttl) <= t' - w.(now) ->
  expired (state_after (iteration py update_interval w self)) t' = true /\
  (state_after (iteration py update_interval w self)).(cache_ttl) = self.(cache_ttl).
Proof.
  intros Hpos Hexp Hgap. rewrite iteration_state.
  destruct (get_bitcoin_price_state w self) as [H | [price [_ H]]]; rewrite H.
  - split; [| reflexivity]. unfold expired in *.
    destruct (last_update self) as [u |]; [| reflexivity].
    apply Z.leb_le in Hexp. apply Z.leb_le. lia.
  - split; [| reflexivity]. unfold expired, remember. simpl.
    apply Z.leb_le. exact Hgap.
Qed.

Lemma spaced_loop (update_interval : Z) (gap : timedelta) (ws : list tick) :
  0 <= gap ->
  forall self,
    self.(cache_ttl) = gap ->
    match ws with [] => True | w :: _ => expired self w.(now) = true end ->
    spaced gap ws = true ->
    ~ In (Print UsingCachedPrice)
         (events (while_True (iteration py update_interval) ws self)) /\
    (outcome (while_True (iteration py update_interval) ws self) = Ok tt ->
     count is_get (events (while_True (iteration py update_interval) ws self)) =
     List.length ws).
Proof.
  intros Hpos. induction ws as [| w ws IH]; intros self Httl Hexp Hsp.
  - split; [intros [] | reflexivity].
  - destruct (iteration_counts update_interval w self) as [_ [_ [_ Hmiss]]].
    destruct (Hmiss (expired_misses _ _ Hexp)) as [Hone Hno].
    assert (Hnext : forall w2 rest, ws = w2 :: rest ->
              expired (state_after (iteration py update_interval w self))
                      w2.(now) = true).
    { intros w2 rest Hws. subst ws. simpl in Hsp.
      apply andb_true_iff in Hsp. destruct Hsp as [Hgap _].
      apply Z.leb_le in Hgap.
      apply (iteration_keeps_expired update_interval w self);
        [rewrite Httl; exact Hpos | exact Hexp | rewrite Httl; exact Hgap]. }
    assert (Hsp' : spaced gap ws = true).
    { destruct ws as [| w2 rest]; [reflexivity |]. simpl in Hsp.
      apply andb_true_iff in Hsp. destruct Hsp as [_ Hsp]. exact Hsp. }
    assert (Httl' : (state_after (iteration py update_interval w self)).(cache_ttl) = gap).
    { rewrite iteration_state, get_bitcoin_price_keeps_ttl. exact Httl. }
    simpl. unfold bind.
    destruct (iteration py update_interval w self) as [[[[] | e] s] o];
      unfold events, outcome, state_after in *; cbn [fst snd] in *.
    + assert (Hhead : match ws with
                      | [] => True
                      | w2 :: _ => expired s w2.(now) = true
                      end).
      { destruct ws as [| w2 rest]; [exact I |]. exact (Hnext w2 rest eq_refl). }
      destruct (IH s Httl' Hhead Hsp') as [Hno2 Hcount].
      destruct (while_True (iteration py update_interval) ws s) as [[r2 s2] o2].
      cbn [fst snd] in *. split.
      * intros Hin. apply in_app_iff in Hin. destruct Hin; auto.
      * intros Hok. rewrite count_app, Hone, (Hcount Hok). reflexivity.
    + split; [exact Hno | discriminate].
Qed.

(** X13. The loop of [main] never uses the cache when its clock advances.
    Starting with an empty cache and the time to live of four minutes, if at
    least four minutes pass between the clock readings of consecutive
    iterations (the loop sleeps five), the cache line is never printed: every
    iteration that starts sends its own GET to the price API.  In a run that
    is still looping, the number of GETs is the number of ticks. *)
Theorem spaced_ticks_never_hit_the_cache (update_interval : Z)
        (ws : list tick) (self : tracker) :
  self.(cache_ttl) = timedelta_minutes 4 ->
  self.(last_update) = None ->
  spaced (timedelta_minutes 4) ws = true ->
  let run := run_continuous_updates py update_interval ws self in
  ~ In (Print UsingCachedPrice) (events run) /\
  (outcome run = Ok Looping -> count is_get (events run) = List.length ws).
Proof.
  intros Httl Hnone Hsp run. subst run.
  assert (Hhead : match ws with
                  | [] => True
                  | w :: _ => expired self w.(now) = true
                  end).
  { destruct ws; [exact I |]. unfold expired. rewrite Hnone. reflexivity. }
  destruct (spaced_loop update_interval (timedelta_minutes 4) ws
              ltac:(discriminate) self Httl Hhead Hsp) as [Hno Hcount].
  rewrite run_continuous_updates_table. cbv zeta.
  destruct (while_True (iteration py update_interval) ws self)
    as [[[[] | e] s] o]; unfold events, outcome in *; cbn [fst snd] in *.
  - split.
    + intros [H | H]; [discriminate | exact (Hno H)].
    + intros _. unfold count in *. simpl. exact (Hcount eq_refl).
  - split; [| discriminate].
    intros [H | H]; [discriminate |].
    apply in_app_iff in H. destruct H as [H | [H | []]]; [exact (Hno H) |].
    destruct (is_KeyboardInterrupt e); discriminate.
Qed.

(** X14. An iteration writes nothing but the two cache fields, and only
    from a price the tick offers: the object after the loop body is the
    object before it, or the object before it with [last_price] set to the
    offered price and [last_update] to the clock reading of the tick;
    [device_id], [api_key] and [cache_ttl] never change.  In particular the
    object is unchanged when the cache answers and when the tick offers no
    price. *)
Theorem iteration_writes_only_the_cache (update_interval : Z) (w : tick)
        (self : tracker) :
  let after := state_after (iteration py update_interval w self) in
  (after = self \/
   exists price, price_offered w = Some price /\
                 after = remember self price w.(now)) /\
  (cache_valid self w.(now) = true -> after = self) /\
  (price_offered w = None -> after = self).
Proof.
  intros after. subst after. rewrite iteration_state.
  split; [exact (get_bitcoin_price_state w self) |]. split.
  - intros Hv. rewrite get_bitcoin_price_hit by assumption. reflexivity.
  - intros Hnone.
    destruct (get_bitcoin_price_state w self) as [H | [price [H _]]];
      [exact H | congruence].
Qed.

(** X15. The read of the price raises no exception of class [Exception]:
    a connection error, a body that is not JSON, a missing key, a document
    that is not an object, a price that does not format all end in the
    handler.  It returns a value, or is left by [KeyboardInterrupt]. *)
Theorem get_bitcoin_price_raises_only_interrupt (w : tick) (self : tracker) :
  (exists v, outcome (get_bitcoin_price w self) = Ok v) \/
  outcome (get_bitcoin_price w self) = Raise KeyboardInterrupt.
Proof.
  destruct (get_bitcoin_price w self) as [[[v | e] s] o] eqn:Hread.
  - left. exists v. reflexivity.
  - right. destruct (get_bitcoin_price_raises _ _ _ _ _ Hread) as [He _].
    destruct e; try discriminate. reflexivity.
Qed.

End Further.

(** ** Concrete runs of the further properties *)

Lemma render_failure_witness :
  let s1 := remember fresh_tracker (PFloat float_67890_12) 0 in
  let out1 :=
    [Http (GET COINDESK_PRICE_URL);
     Print (FetchedNewPrice (PFloat float_67890_12))] in
  let post := Http (POST_data PIXLET_RENDER_URL (render_code 67890)) in
  create_webp ascii_builtins tick_render_500 fresh_tracker =
  (Ok None, s1, out1 ++ [post; Print (FailedToRenderWebP 500)]) /\
  push_to_tidbyt ascii_builtins tick_render_500 fresh_tracker =
  (Ok false, s1, out1 ++ [post; Print (FailedToRenderWebP 500)]) /\
  iteration ascii_builtins 300 tick_render_500 fresh_tracker =
  (Ok tt, s1,
   out1 ++ [post; Print (FailedToRenderWebP 500); Print FailedToUpdate; Sleep 300]).
Proof.
  intros s1 out1 post.
  apply (render_failure_aborts_iteration ascii_builtins 300 tick_render_500
           fresh_tracker s1 out1 (PFloat float_67890_12) 67890
           (FailedToRenderWebP 500));
    try reflexivity.
  discriminate.
Defined.

Lemma push_failure_witness :
  let s1 := remember fresh_tracker (PFloat float_67890_12) 0 in
  let out1 :=
    [Http (GET COINDESK_PRICE_URL);
     Print (FetchedNewPrice (PFloat float_67890_12));
     Http (POST_data PIXLET_RENDER_URL (render_code 67890))] in
  let post :=
    Http (POST_json (TIDBYT_API_URL (py_str ascii_builtins s1.(device_id)))
                    (push_headers ascii_builtins s1)
                    (push_data (b64encode (Byte.x52 :: list_byte_of_string "IFF")))) in
  push_to_tidbyt ascii_builtins tick_push_timeout fresh_tracker =
  (Ok false, s1, out1 ++ post :: map Print [ErrorPushing Timeout]) /\
  iteration ascii_builtins 300 tick_push_timeout fresh_tracker =
  (Ok tt, s1,
   out1 ++ post :: map Print [ErrorPushing Timeout]
        ++ [Print FailedToUpdate; Sleep 300]).
Proof.
  intros s1 out1 post.
  apply (push_failure_is_swallowed ascii_builtins 300 tick_push_timeout
           fresh_tracker s1 out1 Byte.x52 (list_byte_of_string "IFF")
           [ErrorPushing Timeout]);
    try reflexivity.
  discriminate.
Defined.

Lemma cache_after_fetch_witness :
  get_bitcoin_price tick_minute_later
    (remember fresh_tracker (PFloat float_67890_12) 0) =
  (Ok (PFloat float_67890_12),
   remember fresh_tracker (PFloat float_67890_12) 0,
   [Print UsingCachedPrice]).
Proof.
  apply (fetched_price_is_served_from_cache tick_push_403 tick_minute_later
           fresh_tracker (remember fresh_tracker (PFloat float_67890_12) 0)
           [Http (GET COINDESK_PRICE_URL);
            Print (FetchedNewPrice (PFloat float_67890_12))]
           (PFloat float_67890_12));
    reflexivity.
Defined.

Lemma expired_sample_witness :
  let self := remember fresh_tracker (PFloat float_67890_12) 0 in
  ((exists m,
       fetch_failure_line m /\
       get_bitcoin_price tick_price_down self =
       (Ok PNone, self, [Http (GET COINDESK_PRICE_URL); Print m])) \/
   (exists e,
       is_Exception e = false /\
       get_bitcoin_price tick_price_down self =
       (Raise e, self, [Http (GET COINDESK_PRICE_URL)]))) /\
  outcome (push_to_tidbyt ascii_builtins tick_price_down self) <> Ok true /\
  (forall r,
      In (Http r) (events (push_to_tidbyt ascii_builtins tick_price_down self)) ->
      r = GET COINDESK_PRICE_URL).
Proof.
  intros self.
  apply (expired_sample_is_never_served ascii_builtins tick_price_down self);
    reflexivity.
Defined.

Lemma pushed_image_witness :
  exists rendered b bs,
    tick_push_403.(render_api) = Ok rendered /\
    rendered.(status_code) = 200 /\
    rendered.(content) = b :: bs /\
    PDict [("image", PStr "UklGRg==");
           ("installation_id", PStr "bitcoin-tracker");
           ("background", PBool true)] =
    PDict [("image", PStr (b64encode (b :: bs)));
           ("installation_id", PStr "bitcoin-tracker");
           ("background", PBool true)].
Proof.
  apply (pushed_image_is_the_render_of_the_tick ascii_builtins tick_push_403
           fresh_tracker
           "https://api.tidbyt.com/v0/devices/device/push"
           [("Authorization", "Bearer secret");
            ("Content-Type", "application/json")]).
  right. right. right. left. reflexivity.
Defined.

Lemma main_requests_witness :
  allowed_request ascii_builtins (PStr "device") (PStr "secret")
    (POST_json
       "https://api.tidbyt.com/v0/devices/device/push"
       [("Authorization", "Bearer secret");
        ("Content-Type", "application/json")]
       (PDict [("image", PStr "UklGRg==");
               ("installation_id", PStr "bitcoin-tracker");
               ("background", PBool true)])).
Proof.
  apply (main_sends_only_its_three_requests ascii_builtins config_complete
           [tick_push_403]
           (PDict [("device_id", PStr "device");
                   ("api_key", PStr "secret");
                   ("comment", PStr "living room")])
           (PStr "device") (PStr "secret"));
    try reflexivity.
  right. right. right. right. left. reflexivity.
Defined.

Lemma array_config_witness :
  main ascii_builtins config_is_array [tick_push_403] tt = (Raise TypeError, tt, []).
Proof.
  apply (other_startup_errors_are_uncaught ascii_builtins config_is_array
           [tick_push_403] TypeError);
    try reflexivity.
  right. right. split; [reflexivity |].
  exists (PList [PStr "device"; PStr "secret"]).
  repeat split.
Defined.

Lemma negative_interval_witness :
  let run ws := run_continuous_updates ascii_builtins (-1) ws fresh_tracker in
  (run [tick_push_403; tick_minute_later] = run [tick_push_403] /\
   outcome (run [tick_push_403; tick_minute_later]) = Ok Returned /\
   sleeps (events (run [tick_push_403; tick_minute_later])) = 0%nat /\
   (forall success s1 o1,
       push_to_tidbyt ascii_builtins tick_push_403 fresh_tracker = (Ok success, s1, o1) ->
       exists out0,
         events (run [tick_push_403; tick_minute_later]) =
         out0 ++ [Print (UnexpectedError ValueError)])) /\
  (exists out0,
      events (run_continuous_updates ascii_builtins (-10000000000)
                [tick_push_403; tick_minute_later] fresh_tracker) =
      out0 ++ [Print (UnexpectedError OverflowError)]).
Proof.
  intros run. split.
  - apply (negative_interval_stops_after_one_update ascii_builtins (-1)
             tick_push_403 [tick_minute_later] fresh_tracker).
    reflexivity.
  - destruct (negative_interval_stops_after_one_update ascii_builtins
                (-10000000000) tick_push_403 [tick_minute_later] fresh_tracker
                eq_refl)
      as [_ [_ [_ Hlast]]].
    exact (Hlast _ _ _ eq_refl).
Defined.

Lemma exception_ends_run_witness :
  let first := iteration ascii_builtins 300 tick_push_403 fresh_tracker in
  let second := iteration ascii_builtins 300 tick_interrupted (state_after first) in
  run_continuous_updates ascii_builtins 300
    ([tick_push_403] ++ tick_interrupted :: [tick_minute_later]) fresh_tracker =
  (Ok Returned, state_after second,
   Print (StartingUpdates 300)
     :: events first ++ events second ++ [Print StoppingTracker]).
Proof.
  intros first second.
  apply (exception_ends_the_run_at_once ascii_builtins 300
           [tick_push_403] [tick_minute_later] tick_interrupted fresh_tracker
           (state_after first) (state_after second)
           (events first) (events second) KeyboardInterrupt);
    reflexivity.
Defined.

Lemma interrupt_witness :
  exists s out0 r,
    push_to_tidbyt ascii_builtins tick_interrupted_fetch fresh_tracker =
    (Raise KeyboardInterrupt, s, out0 ++ [Http r]) /\
    iteration ascii_builtins 300 tick_interrupted_fetch fresh_tracker =
    (Raise KeyboardInterrupt, s, out0 ++ [Http r]).
Proof.
  apply (interrupt_passes_the_handlers ascii_builtins 300
           tick_interrupted_fetch fresh_tracker).
  left. split; reflexivity.
Defined.

Lemma successful_iteration_witness :
  iteration ascii_builtins 300 tick_minute_later fresh_tracker =
  (Ok tt,
   remember fresh_tracker (PFloat float_42999_9) 60000000,
   [Http (GET COINDESK_PRICE_URL);
    Print (FetchedNewPrice (PFloat float_42999_9));
    Http (POST_data PIXLET_RENDER_URL (render_code 42999));
    Http (POST_json
            "https://api.tidbyt.com/v0/devices/device/push"
            [("Authorization", "Bearer secret");
             ("Content-Type", "application/json")]
            (PDict [("image", PStr "UklGRg==");
                    ("installation_id", PStr "bitcoin-tracker");
                    ("background", PBool true)]));
    Print PushedToTidbyt;
    Sleep 300]).
Proof.
  apply (successful_iteration ascii_builtins 300 tick_minute_later fresh_tracker
           (price_response (PFloat float_42999_9))
           (plain_response 200 "RIFF") (plain_response 200 "")
           (PFloat float_42999_9) 42999
           Byte.x52 (list_byte_of_string "IFF"));
    try reflexivity.
  discriminate.
Defined.

Lemma spaced_ticks_witness :
  let ws := [tick_push_403; good_tick 300000000 (PFloat float_42999_9) "RIFF"] in
  let run := run_continuous_updates ascii_builtins 300 ws fresh_tracker in
  outcome run = Ok Looping /\
  ~ In (Print UsingCachedPrice) (events run) /\
  (outcome run = Ok Looping -> count is_get (events run) = 2%nat).
Proof.
  intros ws run. split; [reflexivity |].
  apply (spaced_ticks_never_hit_the_cache ascii_builtins 300 ws fresh_tracker);
    reflexivity.
Defined.

(** ** base64 loses nothing *)

Lemma in_N256 (n : N) : (n < 256)%N -> In n N256.
Proof.
  intros H. unfold N256. apply in_map_iff. exists (N.to_nat n).
  split; [apply N2Nat.id |]. apply in_seq. lia.
Qed.

(** Every pair of byte values passes the checks: 65536 cases, computed. *)
Lemma pairs_ok : forallb (fun x => forallb (pair_ok x) N256) N256 = true.
Proof. vm_compute. reflexivity. Qed.

Lemma sextet_ok_spec (s : N) :
  sextet_ok s = true ->
  b64_index (b64_char s) = Some s /\ Ascii.eqb (b64_char s) b64_pad = false.
Proof.
  unfold sextet_ok. intros H. apply andb_true_iff in H. destruct H as [Hi Hp].
  split.
  - destruct (b64_index (b64_char s)) as [i |]; [| discriminate].
    apply N.eqb_eq in Hi. congruence.
  - apply negb_true_iff. exact Hp.
Qed.

Lemma pair_facts (x y : N) :
  (x < 256)%N -> (y < 256)%N ->
  let s1 := N.shiftr x 2 in
  let s2 := N.lor (N.shiftl (N.land x 3) 4) (N.shiftr y 4) in
  let s3 := N.lor (N.shiftl (N.land x 15) 2) (N.shiftr y 6) in
  let s4 := N.land y 63 in
  sextet_inverts s1 /\ sextet_inverts s2 /\ sextet_inverts s3 /\ sextet_inverts s4 /\
  N.lor (N.shiftl s1 2) (N.shiftr s2 4) = x /\
  N.land s2 15 = N.shiftr y 4 /\
  N.shiftr s3 2 = N.land x 15 /\
  N.lor (N.shiftl (N.land s3 3) 6) s4 = y /\
  N.lor (N.shiftl (N.shiftr x 4) 4) (N.land x 15) = x.
Proof.
  intros Hx Hy. pose proof pairs_ok as H.
  rewrite forallb_forall in H. specialize (H x (in_N256 x Hx)).
  rewrite forallb_forall in H. specialize (H y (in_N256 y Hy)).
  unfold pair_ok in H. cbv zeta in H.
  rewrite !andb_true_iff, !N.eqb_eq in H.
  destruct H as [[[[[[[[A1 A2] A3] A4] A5] A6] A7] A8] A9].
  cbv zeta. unfold sextet_inverts.
  repeat split; try (apply sextet_ok_spec; assumption); assumption.
Qed.

Lemma byte_of_to_N (a : Byte.byte) : byte_of (Byte.to_N a) = a.
Proof. unfold byte_of. rewrite Byte.of_to_N. reflexivity. Qed.

Lemma to_N_lt (a : Byte.byte) : (Byte.to_N a < 256)%N.
Proof. pose proof (Byte.to_N_bounded a). lia. Qed.

Lemma b64decode_b64encode (bs : bytes) : b64decode (b64encode bs) = Some bs.
Proof.
  assert (H : forall n (l : bytes), (List.length l <= n)%nat ->
              b64decode (b64encode l) = Some l).
  { induction n as [| n IH]; intros l Hl.
    - destruct l; [reflexivity | simpl in Hl; lia].
    - destruct l as [| a [| b [| c rest]]].
      + reflexivity.
      + destruct (pair_facts (Byte.to_N a) 0 (to_N_lt a) eq_refl)
          as [[I1 E1] [[I2 E2] [_ [_ [X [_ _]]]]]].
        change (N.shiftr 0 4) with 0%N in *. rewrite N.lor_0_r in *.
        cbn [b64encode b64decode]. cbv zeta.
        rewrite I1, I2. unfold b64_pad at 1 2. simpl (Ascii.eqb "=" "=").
        cbn [andb is_empty]. rewrite X, byte_of_to_N. reflexivity.
      + destruct (pair_facts (Byte.to_N a) (Byte.to_N b) (to_N_lt a) (to_N_lt b))
          as [[I1 E1] [[I2 E2] [_ [_ [X [L2 _]]]]]].
        destruct (pair_facts (Byte.to_N b) 0 (to_N_lt b) eq_refl)
          as [_ [_ [[I3 E3] [_ [_ [_ [R3 [_ Y]]]]]]]].
        change (N.shiftr 0 6) with 0%N in *. rewrite N.lor_0_r in *.
        cbn [b64encode b64decode]. cbv zeta.
        rewrite I1, I2, E3, I3. unfold b64_pad at 1. simpl (Ascii.eqb "=" "=").
        cbn [is_empty]. rewrite X, L2, R3, Y, !byte_of_to_N. reflexivity.
      + destruct (pair_facts (Byte.to_N a) (Byte.to_N b) (to_N_lt a) (to_N_lt b))
          as [[I1 E1] [[I2 E2] [_ [_ [X [L2 _]]]]]].
        destruct (pair_facts (Byte.to_N b) (Byte.to_N c) (to_N_lt b) (to_N_lt c))
          as [_ [_ [[I3 E3] [[I4 E4] [_ [_ [R3 [Z Y]]]]]]]].
        cbn [b64encode b64decode]. cbv zeta.
        rewrite I1, I2, E3, I3, E4, I4.
        rewrite IH by (simpl in Hl; lia).
        rewrite X, L2, R3, Y, Z, !byte_of_to_N. reflexivity. }
  apply (H (List.length bs)). apply le_n.
Qed.

(** X16. The base64 text of the image determines the image: two byte
    strings with the same encoding are equal, so the [image] field of a push
    request stands for exactly one rendered image. *)
Theorem b64encode_injective (a b : bytes) : b64encode a = b64encode b -> a = b.
Proof.
  intros H. apply (f_equal b64decode) in H.
  rewrite !b64decode_b64encode in H. inversion H. reflexivity.
Qed.

Lemma b64encode_injective_witness :
  list_byte_of_string "RIFF" = [Byte.x52; Byte.x49; Byte.x46; Byte.x46].
Proof.
  apply (b64encode_injective (list_byte_of_string "RIFF")
           [Byte.x52; Byte.x49; Byte.x46; Byte.x46]).
  reflexivity.
Defined.
